(** * kiwi: boot loader configuration base and volume manager base

    A shallow embedding of [kiwi/bootloader_config_base.py] and
    [kiwi/volume_manager/base.py], with the properties of the
    configuration layer proved (or refuted) on it.

    Conventions of the embedding:
    - a Python [str] is a [string]; its characters are code points below
      256, compared by code point;
    - [None] is [option]'s [None]; a Python truth test is written out;
    - a call that can raise returns a [result];
    - collaborators living in other files of kiwi ([DiskSetup],
      [SystemSize], [Defaults], [MountManager], [DataSync], the abstract
      hooks of a concrete volume manager) are arguments of the functions
      that call them. *)

From Stdlib Require Import ZArith Strings.String Strings.Ascii Lists.List.
From stdpp Require Import base tactics option list sorting strings gmap.

Open Scope string_scope.
Open Scope list_scope.

(** ** Exceptions and results *)

Inductive exn : Type :=
  | TypeError (msg : string)
  | ValueError (msg : string)
  | KeyError (key : string)
  | NotImplementedError
  | KiwiBootLoaderTargetError (msg : string)
  | KiwiVolumeManagerSetupError (msg : string)
  | ExternalToolError (msg : string).

Inductive result (A : Type) : Type :=
  | Ok (a : A)
  | Raise (e : exn).
Arguments Ok {A} a.
Arguments Raise {A} e.

Definition rbind {A B : Type} (r : result A) (k : A → result B) : result B :=
  match r with
  | Ok a => k a
  | Raise e => Raise e
  end.

Notation "'do' x <- r ; k" := (rbind r (fun x => k))
  (at level 10, x name, r at level 100, k at level 200).

Fixpoint rmapM {A B : Type} (f : A → result B) (l : list A) : result (list B) :=
  match l with
  | [] => Ok []
  | x :: l' => do y <- f x; do ys <- rmapM f l'; Ok (y :: ys)
  end.

(** ** The Python built-ins the two files rely on *)

Module Py.

(** [s.startswith(p)] *)
Definition startswith (s p : string) : bool := String.prefix p s.

(** [needle in hay] on two strings *)
Fixpoint contains (needle hay : string) : bool :=
  String.prefix needle hay ||
  match hay with
  | "" => false
  | String _ hay' => contains needle hay'
  end.

(** the number of places of [hay] at which [needle] starts *)
Fixpoint occurrences (needle hay : string) : nat :=
  (if String.prefix needle hay then 1 else 0)%nat +
  match hay with
  | "" => 0%nat
  | String _ hay' => occurrences needle hay'
  end.

(** [str.isspace] on one character (code points below 256) *)
Definition isspace (c : ascii) : bool :=
  let n := nat_of_ascii c in
  (((9 <=? n) && (n <=? 13)) || ((28 <=? n) && (n <=? 32))
   || (n =? 133) || (n =? 160))%nat.

Fixpoint lstrip (s : string) : string :=
  match s with
  | "" => ""
  | String c s' => if isspace c then lstrip s' else s
  end.

Fixpoint rstrip (s : string) : string :=
  match s with
  | "" => ""
  | String c s' =>
      match rstrip s' with
      | "" => if isspace c then "" else String c ""
      | t => String c t
      end
  end.

(** [s.strip()] *)
Definition strip (s : string) : string := rstrip (lstrip s).

(** [s.split(sep)] for a separator of one character *)
Fixpoint split (sep : ascii) (s : string) : list string :=
  match s with
  | "" => [""]
  | String c s' =>
      if Ascii.eqb c sep then "" :: split sep s'
      else match split sep s' with
           | [] => [String c ""]
           | w :: ws => String c w :: ws
           end
  end.

(** [sep.join(l)] *)
Fixpoint join (sep : string) (l : list string) : string :=
  match l with
  | [] => ""
  | [w] => w
  | w :: l' => w +:+ sep +:+ join sep l'
  end.

Definition digit (c : ascii) : option Z :=
  let n := nat_of_ascii c in
  if ((48 <=? n) && (n <=? 57))%nat then Some (Z.of_nat n - 48)%Z else None.

(** decimal digits, a single underscore allowed between two digits *)
Fixpoint digits (acc : Z) (after_digit : bool) (s : string) : option Z :=
  match s with
  | "" => if after_digit then Some acc else None
  | String c s' =>
      match digit c with
      | Some d => digits (10 * acc + d)%Z true s'
      | None =>
          if Ascii.eqb c "_" && after_digit then digits acc false s'
          else None
      end
  end.

(** [int(s)] for a string argument *)
Definition int (s : string) : result Z :=
  let t := strip s in
  let parsed :=
    match t with
    | String "+" t' => digits 0 false t'
    | String "-" t' => Z.opp <$> digits 0 false t'
    | _ => digits 0 false t
    end in
  match parsed with
  | Some z => Ok z
  | None => Raise (ValueError ("invalid literal for int() with base 10: " +:+ s))
  end.

(** a value returned where the source returns either an [int] or a [str] *)
Inductive value : Type :=
  | Int (z : Z)
  | Str (s : string).

(** [s.replace(old, new)] for [old] and [new] of one character each *)
Fixpoint replace (old new : ascii) (s : string) : string :=
  match s with
  | "" => ""
  | String c s' =>
      String (if Ascii.eqb c old then new else c) (replace old new s')
  end.

(** [c in s] for a character [c] *)
Fixpoint has_char (c : ascii) (s : string) : bool :=
  match s with
  | "" => false
  | String x s' => Ascii.eqb x c || has_char c s'
  end.

End Py.

(** ** [kiwi/bootloader_config_base.py] *)

Module BootLoaderConfigBase.

(** the fields of the build type section the class reads *)
Record build_type : Type := {
  get_filesystem : option string;
  get_firmware : option string;
  get_kernelcmdline : option string;
  get_boottimeout : option Z;
  get_installboot : option string
}.

Record xml_state : Type := {
  xs_build_type : build_type;
  (** [get_volumes()]: only its emptiness is read here *)
  get_volumes : list string
}.

Record t : Type := {
  root_dir : string;
  state : xml_state
}.

(** [get_boot_timeout_seconds]; [not timeout_seconds] holds for [None]
    and for [0] *)
Definition get_boot_timeout_seconds (self : t) : Z :=
  let timeout_seconds := get_boottimeout (xs_build_type (state self)) in
  match timeout_seconds with
  | None => 10
  | Some z => if (z =? 0)%Z then 10%Z else z
  end.

(** [__get_root_cmdline_parameter]; the method returns [None] where it
    falls off its end. ['root=' in cmdline] raises on [None]. *)
Definition get_root_cmdline_parameter (self : t) : result (option string) :=
  let firmware := get_firmware (xs_build_type (state self)) in
  let cmdline := get_kernelcmdline (xs_build_type (state self)) in
  match cmdline with
  | None => Raise (TypeError "argument of type 'NoneType' is not iterable")
  | Some cmdline =>
      if Py.contains "root=" cmdline then Ok None
      else if decide (firmware = Some "ec2") then Ok (Some "root=/dev/sda1")
      else if decide (firmware = Some "ec2hvm") then Ok (Some "root=/dev/hda1")
      else Ok None
  end.

(** the truth test [if s:] on an optional string *)
Definition truthy (s : option string) : bool :=
  match s with
  | None | Some "" => false
  | Some _ => true
  end.

Definition get_boot_cmdline (self : t) : result string :=
  let cmdline := "" in
  let custom_cmdline := get_kernelcmdline (xs_build_type (state self)) in
  let cmdline :=
    if truthy custom_cmdline
    then cmdline +:+ " " +:+ default "" custom_cmdline
    else cmdline in
  do custom_root <- get_root_cmdline_parameter self;
  let cmdline :=
    if truthy custom_root
    then cmdline +:+ " " +:+ default "" custom_root
    else cmdline in
  Ok (Py.strip cmdline).

(** [get_boot_path]; [need_boot_partition] stands for
    [DiskSetup(xml_state, root_dir).need_boot_partition()] *)
Definition get_boot_path
    (need_boot_partition : xml_state → string → bool)
    (self : t) (target : string) : result string :=
  if bool_decide (target ≠ "disk") && bool_decide (target ≠ "iso")
  then Raise (KiwiBootLoaderTargetError ("Invalid boot loader target " +:+ target))
  else
    let bootpath := "/boot" in
    let need := false in
    let '(bootpath, need) :=
      if bool_decide (target = "disk") then
        let need := need_boot_partition (state self) (root_dir self) in
        if need then ("/", need) else (bootpath, need)
      else (bootpath, need) in
    let bootpath :=
      if bool_decide (target = "disk") then
        if negb need then
          let filesystem := get_filesystem (xs_build_type (state self)) in
          let volumes := get_volumes (state self) in
          if bool_decide (filesystem = Some "btrfs")
             && negb (bool_decide (volumes = []))
          then "/@" +:+ bootpath
          else bootpath
        else bootpath
      else bootpath in
    Ok bootpath.

(** [quote_title] *)
Definition quote_title (name : string) : string :=
  let name := Py.replace " " "_" name in
  let name := Py.replace "[" "(" name in
  let name := Py.replace "]" ")" name in
  name.

(** [get_boot_theme]; [preferences] stands for the lists that
    [get_bootloader_theme()] gives for the sections of
    [xml_state.get_preferences_sections()], in their order *)
Definition get_boot_theme (preferences : list (list string)) : option string :=
  fold_left
    (fun theme section_content =>
       match section_content with
       | [] => theme
       | first :: _ => Some first
       end)
    preferences None.

(** [__get_failsafe_kernel_options], the list it joins *)
Definition failsafe_kernel_options : list string :=
  ["ide=nodma"; "apm=off"; "noresume"; "edd=off"; "powersaved=off";
   "nohz=off"; "highres=off"; "processsor.max+cstate=1"; "nomodeset";
   "x11failsafe"].

Definition get_failsafe_kernel_options : string :=
  Py.join " " failsafe_kernel_options.

Definition get_failsafe_boot_cmdline (self : t) : result string :=
  do cmdline <- get_boot_cmdline self;
  let cmdline := cmdline +:+ " " +:+ get_failsafe_kernel_options in
  Ok cmdline.

(** what the title methods read of [xml_state.xml_data] and of the
    build type, whose [image] attribute is mandatory *)
Record xml_data : Type := {
  get_displayname : option string;
  get_name : option string;
  get_image : string
}.

(** [title = get_displayname()], and [get_name()] [if not title] *)
Definition title_of (d : xml_data) : option string :=
  if truthy (get_displayname d) then get_displayname d else get_name d.

(** [get_menu_entry_title]; [upper] stands for [str.upper], which leaves
    the characters below 256. A title of [None] makes [title + ' [ ']
    raise. *)
Definition get_menu_entry_title (upper : string → string) (d : xml_data)
    (plain : bool) : result (option string) :=
  let title := title_of d in
  let type_name := get_image d in
  if plain then Ok title
  else
    match title with
    | None =>
        Raise (TypeError "unsupported operand type(s) for +: 'NoneType' and 'str'")
    | Some title => Ok (Some (title +:+ " [ " +:+ upper type_name +:+ " ]"))
    end.

Definition get_menu_entry_install_title (d : xml_data) : option string :=
  title_of d.

End BootLoaderConfigBase.

(** ** Paths: [os.path.normpath] and [kiwi.path.Path.sort_by_hierarchy] *)

Module Path.

(** [os.sep] *)
Definition sep : string := "/".

(** one round of the loop of [posixpath.normpath] over the components *)
Definition normpath_step (initial_slashes : nat)
    (new_comps : list string) (comp : string) : list string :=
  if bool_decide (comp = "") || bool_decide (comp = ".") then new_comps
  else if bool_decide (comp ≠ "..")
          || (bool_decide (initial_slashes = 0%nat) && bool_decide (new_comps = []))
          || (negb (bool_decide (new_comps = []))
              && bool_decide (last new_comps = Some ".."))
  then new_comps ++ [comp]
  else if negb (bool_decide (new_comps = [])) then removelast new_comps
  else new_comps.

Fixpoint slashes (n : nat) : string :=
  match n with
  | O => ""
  | S n' => String "/" (slashes n')
  end.

(** [os.path.normpath] of the POSIX flavour *)
Definition normpath (path : string) : string :=
  if bool_decide (path = "") then "."
  else
    let initial_slashes :=
      if Py.startswith path "/" then
        if Py.startswith path "//" && negb (Py.startswith path "///")
        then 2%nat else 1%nat
      else 0%nat in
    let comps := Py.split "/" path in
    let comps := fold_left (normpath_step initial_slashes) comps [] in
    let path := Py.join "/" comps in
    let path := slashes initial_slashes +:+ path in
    if bool_decide (path = "") then "." else path.

(** the depth of a path in the tree: the number of its [/]-separated
    elements *)
Definition depth (path : string) : nat := length (Py.split "/" path).

(** [x] goes in front of the first path that is not shallower *)
Fixpoint insert_by_depth (x : string) (l : list string) : list string :=
  match l with
  | [] => [x]
  | y :: l' =>
      if (depth x <=? depth y)%nat then x :: y :: l'
      else y :: insert_by_depth x l'
  end.

(** Modelled from the spec: [Path.sort_by_hierarchy] of [kiwi/path.py],
    which is not among the sources. The spec describes it as the
    hierarchy-aware sort that stabilizes a lexicographically sorted list
    so that ancestors come first, and speaks of the paths "of equal depth
    in the hierarchy sort": the paths are put in order of depth,
    shallower first, and paths of one depth keep the order they came in. *)
Definition sort_by_hierarchy (path_list : list string) : list string :=
  foldr insert_by_depth [] path_list.

(** [a] is an ancestor of [d] in the path hierarchy: [d] continues [a]
    with a further element; everything absolute lies below the root *)
Definition ancestor (a d : string) : Prop :=
  a ≠ d ∧ ((∃ rest, d = a +:+ "/" +:+ rest) ∨ (a = "/" ∧ ∃ rest, d = "/" +:+ rest)).

(** the decidable form of [ancestor] *)
Definition ancestorb (a d : string) : bool :=
  negb (bool_decide (a = d))
  && (String.prefix (a +:+ "/") d || (bool_decide (a = "/") && String.prefix "/" d)).

(** [a] comes before [d] in [l]: the two, in this order, are a
    subsequence of [l] *)
Definition precedes (a d : string) (l : list string) : Prop :=
  [a; d] `sublist_of` l.

(** [os.path.basename]: what follows the last [/] *)
Definition basename (p : string) : string :=
  default "" (last (Py.split "/" p)).

End Path.

(** ** [kiwi/volume_manager/base.py] *)

Module VolumeManagerBase.

(** the volume tuples of [XMLState.get_volumes()] *)
Record volume : Type := {
  name : string;
  size : string;
  realpath : string;
  mountpoint : string;
  fullsize : bool;
  attributes : list string
}.

Global Instance volume_eq_dec : EqDecision volume.
Proof. solve_decision. Defined.

Record t : Type := {
  self_mountpoint : option string;
  root_dir : string;
  self_volumes : list volume
}.

Record canonical_volume_type : Type := {
  volumes : list volume;
  full_size_volume : option volume
}.

(** a volume flagged as the one taking all the rest space *)
Definition flagged (v : volume) : Prop := fullsize v = true.

(** [sorted(l)] on strings *)
Definition sorted (l : list string) : list string := merge_sort String.le l.

(** the first loop of [get_canonical_volume_list], one volume *)
Definition canonical_step (acc : gmap string volume * option volume)
    (v : volume) : gmap string volume * option volume :=
  let '(volume_paths, full_size_volume) := acc in
  if fullsize v then (volume_paths, Some v)
  else if negb (bool_decide (realpath v = ""))
  then (<[realpath v := v]> volume_paths, full_size_volume)
  else (volume_paths, full_size_volume).

(** [volume_paths[realpath]] *)
Definition getitem (volume_paths : gmap string volume) (realpath : string)
    : result volume :=
  match volume_paths !! realpath with
  | Some v => Ok v
  | None => Raise (KeyError realpath)
  end.

Definition get_canonical_volume_list (self : t) : result canonical_volume_type :=
  let '(volume_paths, full_size_volume) :=
    fold_left canonical_step (self_volumes self) (∅, None) in
  do volume_list <-
    rmapM (getitem volume_paths)
      (Path.sort_by_hierarchy (sorted (map_to_list volume_paths).*1));
  Ok {| volumes := volume_list; full_size_volume := full_size_volume |}.

(** [SystemSize] and [Defaults], which live in other files: the measured
    size in megabytes of the tree at a path with some paths left out, the
    size customized for a filesystem, and the minimum size of a volume *)
Record sizing : Type := {
  accumulate_mbyte_file_sizes : string → list string → Z;
  customize : Z → string → Z;
  get_min_volume_mbytes : Z
}.

(** the loop of [get_volume_mbsize] that collects [exclude_paths] *)
Fixpoint exclude_loop (root_dir lookup_path : string)
    (all_volumes : list volume) (exclude_paths : list string) : list string :=
  match all_volumes with
  | [] => exclude_paths
  | volume :: rest =>
      let volume_path := realpath volume in
      if bool_decide (lookup_path = volume_path)
      then exclude_loop root_dir lookup_path rest exclude_paths
      else if bool_decide (lookup_path = Path.sep)
      then exclude_loop root_dir lookup_path rest
             (exclude_paths ++ [Path.normpath (root_dir +:+ Path.sep +:+ volume_path)])
      else if Py.startswith volume_path lookup_path
      then exclude_loop root_dir lookup_path rest
             (exclude_paths ++ [Path.normpath (root_dir +:+ Path.sep +:+ volume_path)])
      else exclude_loop root_dir lookup_path rest exclude_paths
  end.

(** [int(mbsize)], [mbsize] being the text of the spec or the [0] of an
    oem build *)
Definition int_of (mbsize : Py.value) : result Z :=
  match mbsize with
  | Py.Int z => Ok z
  | Py.Str s => Py.int s
  end.

Definition get_volume_mbsize (sz : sizing) (self : t) (volume : volume)
    (all_volumes : list VolumeManagerBase.volume) (filesystem_name : string)
    (image_type : option string) : result Py.value :=
  match Py.split ":" (size volume) with
  | [size_type; mbsize] =>
      let lookup_path := realpath volume in
      let '(size_type, mbsize) :=
        if bool_decide (image_type = Some "oem")
        then ("freespace", Py.Int 0)
        else (size_type, Py.Str mbsize) in
      if bool_decide (size_type = "freespace") then
        let exclude_paths :=
          exclude_loop (root_dir self) lookup_path all_volumes [] in
        let volume_size :=
          Path.normpath (root_dir self +:+ Path.sep +:+ lookup_path) in
        do n <- int_of mbsize;
        let mbsize := (n + get_min_volume_mbytes sz)%Z in
        let mbsize :=
          (mbsize + customize sz
             (accumulate_mbyte_file_sizes sz volume_size exclude_paths)
             filesystem_name)%Z in
        Ok (Py.Int mbsize)
      else Ok mbsize
  | [] | [_] => Raise (ValueError "not enough values to unpack (expected 2)")
  | _ => Raise (ValueError "too many values to unpack (expected 2)")
  end.

(** the hooks a concrete volume manager supplies and the collaborators
    [sync_data] calls, acting on the state of the system [W]:
    [MountManager(device=None, mountpoint).is_mounted()],
    [mount_volumes()], [umount_volumes()] and
    [DataSync(source, target).sync_data(options, exclude)] *)
Record backend (W : Type) : Type := {
  is_mounted : string → W → bool;
  mount_volumes : W → result W;
  umount_volumes : W → result W;
  data_sync : string → string → list string → option (list string) → W → result W
}.
Arguments is_mounted {W} _ _ _.
Arguments mount_volumes {W} _ _.
Arguments umount_volumes {W} _ _.
Arguments data_sync {W} _ _ _ _ _ _.

Definition sync_options : list string :=
  ["-a"; "-H"; "-X"; "-A"; "--one-file-system"].

Definition sync_data {W : Type} (b : backend W) (self : t)
    (exclude : option (list string)) (w : W) : result W :=
  match self_mountpoint self with
  | None | Some "" => Ok w
  | Some mountpoint =>
      do w <- (if negb (is_mounted b mountpoint w)
               then mount_volumes b w else Ok w);
      do w <- data_sync b (root_dir self) mountpoint sync_options exclude w;
      umount_volumes b w
  end.

(** the hooks as the base class itself has them *)
Definition base_backend {W : Type} (is_mounted : string → W → bool)
    (data_sync : string → string → list string → option (list string) → W → result W)
    : backend W :=
  {| is_mounted := is_mounted;
     mount_volumes := fun _ => Raise NotImplementedError;
     umount_volumes := fun _ => Raise NotImplementedError;
     data_sync := data_sync |}.

(** [custom_filesystem_args] *)
Record custom_filesystem_args : Type := {
  create_options : list string;
  mount_options : list string
}.

(** [__init__]; [path_exists] stands for [os.path.exists], [custom_args]
    is [None] or a dictionary. The attributes not kept in [t] start as
    [volumes_mounted_initially = False], [volume_group = None],
    [volume_map = {}] and [mount_list = []]. *)
Definition init (path_exists : string → bool) (root_dir : string)
    (volumes : list volume) (custom_args : option (gmap string (list string)))
    : result (t * custom_filesystem_args) :=
  if negb (path_exists root_dir)
  then Raise (KiwiVolumeManagerSetupError
                ("given root directory " +:+ root_dir +:+ " does not exist"))
  else
    let args := default ∅ custom_args in
    Ok ({| self_mountpoint := None; root_dir := root_dir;
           self_volumes := volumes |},
        {| create_options := default [] (args !! "fs_create_options");
           mount_options := default [] (args !! "fs_mount_options") |}).

(** [setup_mountpoint]; [mkdtemp] stands for [tempfile.mkdtemp] called
    with a prefix *)
Definition setup_mountpoint (mkdtemp : string → string) (self : t) : t :=
  {| self_mountpoint := Some (mkdtemp "kiwi_volumes.");
     root_dir := root_dir self;
     self_volumes := self_volumes self |}.


(** the tree the paths of the volumes are created in: [os.path.exists]
    and [Path.create] on the state [F] of the file system *)
Record tree (F : Type) : Type := {
  path_exists : string → F → bool;
  path_create : string → F → F
}.
Arguments path_exists {F} _ _ _.
Arguments path_create {F} _ _ _.

(** one round of the loop of [create_volume_paths_in_root_dir] *)
Definition create_volume_path {F : Type} (tr : tree F) (root_dir : string)
    (f : F) (volume : volume) : F :=
  if negb (bool_decide (realpath volume = ""))
     && negb (bool_decide (realpath volume = Path.sep))
  then
    let volume_image_path :=
      Path.normpath (root_dir +:+ Path.sep +:+ realpath volume) in
    if negb (path_exists tr volume_image_path f)
    then path_create tr volume_image_path f
    else f
  else f.

Definition create_volume_paths_in_root_dir {F : Type} (tr : tree F)
    (self : t) (f : F) : F :=
  fold_left (create_volume_path tr (root_dir self)) (self_volumes self) f.

End VolumeManagerBase.

(** ** [kiwi/builder/install.py] *)

Module InstallImageBuilder.

Inductive error : Type :=
  | KiwiInstallBootImageError (msg : string).

(** the calls that act on the system, in the words of the source *)
Inductive action : Type :=
  | PathCreate (path : string)
  | CopyKernel (target_dir file_name : string)
  | Symlink (source link_name : string)
  | CopyXenHypervisor (target_dir file_name : string)
  | IncludeModule (module : string) (install_media : bool)
  | OmitModule (module : string) (install_media : bool)
  | IncludeFile (filename : string) (install_media : bool)
  | CreateInitrd (basename : string) (install_initrd : bool)  (* of [self.mbrid] *)
  | CommandRun (command : list string)
  | Chmod (path : string) (mode : Z).

(** a run of a method: the calls it made, and the value it returned or
    the error it raised *)
Definition run (A : Type) : Type := list action * (error + A).

Definition ret {A : Type} (a : A) : run A := ([], inr a).
Definition call (a : action) : run unit := ([a], inr tt).

Definition bind {A B : Type} (r : run A) (k : A → run B) : run B :=
  match r with
  | (calls, inl e) => (calls, inl e)
  | (calls, inr a) => let '(calls', b) := k a in (calls ++ calls', b)
  end.

Notation "r1 ;; r2" := (bind r1 (fun _ => r2))
  (at level 100, r2 at level 200, right associativity).

(** the attributes [__init__] works out itself; the collaborators it
    builds ([FirmWare], [SystemSetup], [SystemIdentifier]) are left out *)
Record t : Type := {
  arch : string;
  root_dir : string;
  target_dir : string;
  root_filesystem_is_multipath : option bool;
  initrd_system : option string;
  iso_volume_id : string;
  diskname : string;
  isoname : string;
  pxename : string;
  pxetarball : string;
  dracut_config_file : string;
  squashed_diskname : string;
  md5name : string;
  xz_options : option (list string)
}.

(** what [__init__] reads: [platform.machine()], the name and the version
    of the image, [build_type.get_volid()], the multipath scan flag, the
    initrd system, two values of [Defaults] and the custom arguments *)
Record inputs : Type := {
  machine : string;
  get_name : string;
  get_image_version : string;
  get_volid : option string;
  get_oemconfig_oem_multipath_scan : option bool;
  get_initrd_system : option string;
  get_install_volume_id : string;
  get_dracut_conf_name : string
}.

Definition init (i : inputs) (root_dir target_dir : string)
    (custom_args : option (gmap string (list string))) : t :=
  let arch := machine i in
  let arch :=
    if bool_decide (arch = "i686") || bool_decide (arch = "i586")
    then "ix86" else arch in
  let pxename :=
    Py.join "" [get_name i; "." +:+ arch; "-" +:+ get_image_version i] in
  {| arch := arch;
     root_dir := root_dir;
     target_dir := target_dir;
     root_filesystem_is_multipath := get_oemconfig_oem_multipath_scan i;
     initrd_system := get_initrd_system i;
     iso_volume_id :=
       match get_volid i with
       | None | Some "" => get_install_volume_id i
       | Some volid => volid
       end;
     diskname :=
       Py.join "" [target_dir; "/"; get_name i; "." +:+ arch;
                   "-" +:+ get_image_version i; ".raw"];
     isoname :=
       Py.join "" [target_dir; "/"; get_name i; "." +:+ arch;
                   "-" +:+ get_image_version i; ".install.iso"];
     pxename := pxename;
     pxetarball := Py.join "" [target_dir; "/"; pxename; ".install.tar"];
     dracut_config_file := Py.join "" [root_dir; get_dracut_conf_name i];
     squashed_diskname := Py.join "" [get_name i; ".raw"];
     md5name := Py.join "" [get_name i; ".md5"];
     xz_options := default ∅ custom_args !! "xz_options" |}.

(** what the two methods below ask of the boot image tree: whether
    [kernel.get_kernel()] and [kernel.get_xen_hypervisor()] find
    something, [xml_state.is_xen_server()], and the two attributes of the
    boot image task they read *)
Record boot_image : Type := {
  kernel_found : bool;
  is_xen_server : bool;
  xen_hypervisor_found : bool;
  boot_root_directory : string;
  initrd_filename : string
}.

(** [_add_system_image_boot_options_to_boot_image] *)
Definition add_system_image_boot_options_to_boot_image (b : boot_image)
    : run unit :=
  let filename := Py.join "" [boot_root_directory b; "/config.bootoptions"] in
  call (IncludeFile (Path.sep +:+ Path.basename filename) true).

(** the part the two methods share word for word: the modules of a
    dracut initrd, and the creation of the initrd *)
Definition install_initrd (b : boot_image) (self : t) : run unit :=
  (if bool_decide (initrd_system self = Some "dracut") then
     call (IncludeModule "kiwi-dump" true) ;;
     (if bool_decide (root_filesystem_is_multipath self = Some false)
      then call (OmitModule "multipath" true) else ret tt) ;;
     add_system_image_boot_options_to_boot_image b
   else ret tt) ;;
  call (CreateInitrd "initrd_kiwi_install" true).





End InstallImageBuilder.

(** ** Concrete descriptors, volume sets and collaborators

    The inputs the properties below are run on. *)

Module Examples.

Definition descriptor (fs fw cl : option string) (bt : option Z)
    (vols : list string) : BootLoaderConfigBase.t :=
  {| BootLoaderConfigBase.root_dir := "/tmp/root";
     BootLoaderConfigBase.state :=
       {| BootLoaderConfigBase.xs_build_type :=
            {| BootLoaderConfigBase.get_filesystem := fs;
               BootLoaderConfigBase.get_firmware := fw;
               BootLoaderConfigBase.get_kernelcmdline := cl;
               BootLoaderConfigBase.get_boottimeout := bt;
               BootLoaderConfigBase.get_installboot := None |};
          BootLoaderConfigBase.get_volumes := vols |} |}.

Definition ec2_descriptor : BootLoaderConfigBase.t :=
  descriptor (Some "ext4") (Some "ec2") (Some "console=ttyS0 ") None [].

Definition btrfs_descriptor : BootLoaderConfigBase.t :=
  descriptor (Some "btrfs") (Some "efi") (Some "splash") (Some 5%Z) ["home"].

Import VolumeManagerBase.

Definition mkvolume (n sz path : string) (full : bool) : volume :=
  {| name := n; size := sz; realpath := path; mountpoint := path;
     fullsize := full; attributes := [] |}.

Definition LVRoot : volume := mkvolume "LVRoot" "freespace:500" "/" true.
Definition LVvar : volume := mkvolume "LVvar" "freespace:100" "/var" false.
Definition LVvar_log : volume := mkvolume "LVvar_log" "size:200" "/var/log" false.
Definition LVvar2 : volume := mkvolume "LVvar2" "size:300" "/var2" false.
Definition LVopt : volume := mkvolume "LVopt" "size:500" "/opt" false.
Definition LVhome : volume := mkvolume "LVhome" "freespace:40" "/home" true.
Definition LVnopath : volume := mkvolume "LVdata" "size:100" "" false.

Definition manager (mp : option string) (vols : list volume) : t :=
  {| self_mountpoint := mp; root_dir := "/tmp/root"; self_volumes := vols |}.

(** a measurement that charges ten megabytes per tree and gives one back
    for every path left out, a filesystem that costs half as much again,
    and a minimum of thirty megabytes *)
Definition sizing0 : sizing :=
  {| accumulate_mbyte_file_sizes := fun _ excl => (10 - Z.of_nat (length excl))%Z;
     customize := fun mb _ => (mb * 3 / 2)%Z;
     get_min_volume_mbytes := 30%Z |}.

(** a system that records whether the volumes are mounted and the calls
    made to it, in order *)
Inductive call : Type :=
  | CallMount
  | CallSync (source target : string) (options : list string)
      (exclude : option (list string))
  | CallUmount.

Record world : Type := { mounted : bool; calls : list call }.

Definition recorder : backend world :=
  {| is_mounted := fun _ w => mounted w;
     mount_volumes := fun w =>
       Ok {| mounted := true; calls := calls w ++ [CallMount] |};
     umount_volumes := fun w =>
       Ok {| mounted := false; calls := calls w ++ [CallUmount] |};
     data_sync := fun source target options exclude w =>
       Ok {| mounted := mounted w;
             calls := calls w ++ [CallSync source target options exclude] |} |}.

(** a tree kept as the set of its paths *)
Definition path_set : tree (gset string) :=
  {| path_exists := fun p f => bool_decide (p ∈ f);
     path_create := fun p f => {[p]} ∪ f |}.

Definition LVsnap : volume :=
  {| name := "LVsnap"; size := "freespace:20"; realpath := "/var/snap";
     mountpoint := "/var/snap"; fullsize := false;
     attributes := ["no-copy-on-write"; "quota"; "no-copy-on-write"] |}.

Definition titles : BootLoaderConfigBase.xml_data :=
  {| BootLoaderConfigBase.get_displayname := Some "My [Image]";
     BootLoaderConfigBase.get_name := Some "my-image";
     BootLoaderConfigBase.get_image := "oem" |}.

End Examples.

(** * Properties *)

(** ** Facts about the built-ins *)

Module PyFacts.

Lemma app_cons (c : ascii) (s t : string) :
  String c s +:+ t = String c (s +:+ t).
Proof. reflexivity. Qed.

Lemma app_empty_l (s : string) : "" +:+ s = s.
Proof. reflexivity. Qed.

Lemma lstrip_space (s : string) : Py.lstrip (" " +:+ s) = Py.lstrip s.
Proof. reflexivity. Qed.

Lemma strip_space (s : string) : Py.strip (" " +:+ s) = Py.strip s.
Proof. reflexivity. Qed.

Lemma contains_nonempty (needle hay : string) :
  needle ≠ "" → Py.contains needle hay = true → hay ≠ "".
Proof.
  intros Hn Hc ->. destruct needle; [done|]. discriminate Hc.
Qed.

Lemma rstrip_app_fixed (s t : string) :
  t ≠ "" → Py.rstrip t = t → Py.rstrip (s +:+ t) = s +:+ t.
Proof.
  intros Hne Ht. induction s as [|a s IH]; [done|].
  rewrite ?app_cons. simpl. rewrite IH.
  destruct (s +:+ t) eqn:E; [|done].
  destruct s; [|done]. by destruct Hne.
Qed.

Lemma lstrip_app (s t : string) :
  Py.lstrip (s +:+ t) =
  match Py.lstrip s with "" => Py.lstrip t | u => u +:+ t end.
Proof.
  induction s as [|a s IH]; [done|].
  rewrite ?app_cons. simpl. destruct (Py.isspace a); [exact IH|done].
Qed.

Lemma contains_lstrip (needle s : string) :
  Py.contains needle s = false → Py.contains needle (Py.lstrip s) = false.
Proof.
  induction s as [|a s IH]; [done|]. intros Hc. simpl.
  destruct (Py.isspace a); [|done]. apply IH.
  simpl in Hc. by apply orb_false_elim in Hc as [_ ?].
Qed.

Lemma prefix_root_app (s t : string) :
  String.prefix "root=" s = false →
  String.prefix "root=" (s +:+ String " " t) = false.
Proof.
  destruct s as [|a1 [|a2 [|a3 [|a4 [|a5 s]]]]];
    rewrite ?app_cons, ?app_empty_l; cbn [String.prefix];
    repeat (destruct (ascii_dec _ _); try done).
  by destruct s.
Qed.

Lemma occurrences_root_app (s t : string) :
  Py.contains "root=" s = false →
  Py.occurrences "root=" (s +:+ String " " t) = Py.occurrences "root=" (String " " t).
Proof.
  induction s as [|a s IH]; [done|]. intros Hc.
  cbn [Py.contains] in Hc. apply orb_false_elim in Hc as [Hp Hc].
  rewrite app_cons. cbn [Py.occurrences]. rewrite <-app_cons.
  rewrite (prefix_root_app _ _ Hp). simpl. by apply IH.
Qed.

(** a command line without [root=] holds the appended root assignment
    and no other, once it is stripped *)
Lemma occurrences_root_appended (c t : string) :
  t = "root=/dev/sda1" ∨ t = "root=/dev/hda1" →
  Py.contains "root=" c = false →
  Py.occurrences "root=" (Py.strip (c +:+ String " " t)) = 1%nat.
Proof.
  intros Ht Hc. unfold Py.strip. rewrite lstrip_app.
  destruct (Py.lstrip c) as [|a u] eqn:Hl.
  - by destruct Ht as [-> | ->].
  - rewrite rstrip_app_fixed; [| done | by destruct Ht as [-> | ->]].
    rewrite occurrences_root_app.
    + by destruct Ht as [-> | ->].
    + rewrite <-Hl. by apply contains_lstrip.
Qed.
End PyFacts.

(** ** The boot loader configuration *)

Module BootLoaderFacts.
Import BootLoaderConfigBase.

Lemma truthy_Some (s : string) : s ≠ "" → truthy (Some s) = true.
Proof. by destruct s. Qed.

(** The command line of a descriptor whose [kernelcmdline] is the
    string [c], by the three ways out of the root parameter lookup. *)
Lemma get_boot_cmdline_Some (self : t) (c : string) :
  get_kernelcmdline (xs_build_type (state self)) = Some c →
  get_boot_cmdline self =
    Ok (if Py.contains "root=" c then Py.strip c
        else if decide (get_firmware (xs_build_type (state self)) = Some "ec2")
        then Py.strip (c +:+ " root=/dev/sda1")
        else if decide (get_firmware (xs_build_type (state self)) = Some "ec2hvm")
        then Py.strip (c +:+ " root=/dev/hda1")
        else Py.strip c).
Proof.
  intros Hc. unfold get_boot_cmdline, get_root_cmdline_parameter.
  rewrite Hc. simpl.
  destruct (Py.contains "root=" c) eqn:Hroot; simpl.
  - destruct c; [discriminate Hroot|]. reflexivity.
  - repeat case_decide; simpl; destruct c; reflexivity.
Qed.

(** C3: a configured command line that holds [root=] comes back
    unchanged but for the surrounding whitespace; one that holds none
    gets [root=/dev/sda1] appended for the firmware [ec2] and
    [root=/dev/hda1] for [ec2hvm], which then is the one root assignment
    of the result, and nothing for any other firmware. *)
Theorem get_boot_cmdline_root (self : t) (c : string) :
  get_kernelcmdline (xs_build_type (state self)) = Some c →
  let firmware := get_firmware (xs_build_type (state self)) in
  (Py.contains "root=" c = true → get_boot_cmdline self = Ok (Py.strip c)) ∧
  (Py.contains "root=" c = false → firmware = Some "ec2" →
     get_boot_cmdline self = Ok (Py.strip (c +:+ " root=/dev/sda1"))
     ∧ Py.occurrences "root=" (Py.strip (c +:+ " root=/dev/sda1")) = 1%nat) ∧
  (Py.contains "root=" c = false → firmware = Some "ec2hvm" →
     get_boot_cmdline self = Ok (Py.strip (c +:+ " root=/dev/hda1"))
     ∧ Py.occurrences "root=" (Py.strip (c +:+ " root=/dev/hda1")) = 1%nat) ∧
  (Py.contains "root=" c = false →
     firmware ≠ Some "ec2" → firmware ≠ Some "ec2hvm" →
     get_boot_cmdline self = Ok (Py.strip c)).
Proof.
  intros Hc firmware. rewrite (get_boot_cmdline_Some self c Hc).
  fold firmware. split; [|split; [|split]].
  - by intros ->.
  - intros Hroot ->. rewrite Hroot. split; [reflexivity|].
    apply (PyFacts.occurrences_root_appended c "root=/dev/sda1"); auto.
  - intros Hroot ->. rewrite Hroot. split; [reflexivity|].
    apply (PyFacts.occurrences_root_appended c "root=/dev/hda1"); auto.
  - intros -> H1 H2. by rewrite !decide_False.
Qed.

(** C4 fails on the code: without a [kernelcmdline] the test
    ['root=' in cmdline] of the root parameter lookup raises, whatever
    the rest of the descriptor. *)
Theorem get_boot_cmdline_absent_raises
    (root : string) (fs fw ib : option string) (bt : option Z)
    (vols : list string) :
  get_boot_cmdline
    {| root_dir := root;
       state := {| xs_build_type :=
                     {| get_filesystem := fs; get_firmware := fw;
                        get_kernelcmdline := None; get_boottimeout := bt;
                        get_installboot := ib |};
                   get_volumes := vols |} |}
  = Raise (TypeError "argument of type 'NoneType' is not iterable").
Proof. reflexivity. Qed.

(** The timeout is the configured one when it is not zero, and 10 when
    none is configured. *)
Lemma get_boot_timeout_seconds_nonzero (self : t) (z : Z) :
  get_boottimeout (xs_build_type (state self)) = Some z → z ≠ 0%Z →
  get_boot_timeout_seconds self = z.
Proof.
  intros Hz Hnz. unfold get_boot_timeout_seconds. rewrite Hz.
  destruct (Z.eqb_spec z 0); [done|reflexivity].
Qed.

Lemma get_boot_timeout_seconds_unset (self : t) :
  get_boottimeout (xs_build_type (state self)) = None →
  get_boot_timeout_seconds self = 10%Z.
Proof. intros Hz. unfold get_boot_timeout_seconds. by rewrite Hz. Qed.

(** C10 fails on the code: a configured timeout of zero is taken for
    an unset one and the default 10 is returned in its place. *)
Theorem get_boot_timeout_seconds_zero
    (root : string) (fs fw cl ib : option string) (vols : list string) :
  let self :=
    {| root_dir := root;
       state := {| xs_build_type :=
                     {| get_filesystem := fs; get_firmware := fw;
                        get_kernelcmdline := cl; get_boottimeout := Some 0%Z;
                        get_installboot := ib |};
                   get_volumes := vols |} |} in
  get_boottimeout (xs_build_type (state self)) = Some 0%Z ∧
  get_boot_timeout_seconds self = 10%Z ∧
  get_boot_timeout_seconds self ≠ 0%Z.
Proof. done. Qed.

(** C2: the boot path is [/boot] on an iso; on a disk it is [/] with a
    boot partition, [/@/boot] without one on btrfs with volumes, and
    [/boot] otherwise; any other target is refused with the boot loader
    target error. *)
Theorem get_boot_path_cases
    (need_boot_partition : xml_state → string → bool)
    (self : t) (target : string) :
  let need := need_boot_partition (state self) (root_dir self) in
  let btrfs_volumes :=
    get_filesystem (xs_build_type (state self)) = Some "btrfs"
    ∧ get_volumes (state self) ≠ [] in
  (target = "iso" → get_boot_path need_boot_partition self target = Ok "/boot") ∧
  (target = "disk" → need = true →
     get_boot_path need_boot_partition self target = Ok "/") ∧
  (target = "disk" → need = false → btrfs_volumes →
     get_boot_path need_boot_partition self target = Ok "/@/boot") ∧
  (target = "disk" → need = false → ¬ btrfs_volumes →
     get_boot_path need_boot_partition self target = Ok "/boot") ∧
  (target ≠ "disk" → target ≠ "iso" →
     get_boot_path need_boot_partition self target
     = Raise (KiwiBootLoaderTargetError ("Invalid boot loader target " +:+ target))).
Proof.
  intros need btrfs_volumes. unfold get_boot_path. fold need.
  repeat split.
  - intros ->. reflexivity.
  - intros -> Hn. rewrite Hn. reflexivity.
  - intros -> Hn [Hfs Hv]. rewrite Hn. simpl.
    rewrite (bool_decide_eq_true_2 _ Hfs), (bool_decide_eq_false_2 _ Hv).
    reflexivity.
  - intros -> Hn Hnot. rewrite Hn. simpl.
    destruct (bool_decide _) eqn:Hfs; [|reflexivity].
    destruct (bool_decide (_ = [])) eqn:Hv; [reflexivity|].
    apply bool_decide_eq_true_1 in Hfs. apply bool_decide_eq_false_1 in Hv.
    destruct Hnot. by split.
  - intros H1 H2.
    by rewrite (bool_decide_eq_true_2 _ H1), (bool_decide_eq_true_2 _ H2).
Qed.

(** C3 at work: a command line with [root=], one without on [ec2], on
    [ec2hvm] and on [efi]. *)
Lemma get_boot_cmdline_root_witness :
  get_boot_cmdline
    (Examples.descriptor None (Some "ec2") (Some " root=/dev/vda2 quiet ") None [])
    = Ok "root=/dev/vda2 quiet"
  ∧ get_boot_cmdline Examples.ec2_descriptor = Ok "console=ttyS0  root=/dev/sda1"
  ∧ get_boot_cmdline
      (Examples.descriptor None (Some "ec2hvm") (Some "") None [])
    = Ok "root=/dev/hda1"
  ∧ get_boot_cmdline Examples.btrfs_descriptor = Ok "splash".
Proof.
  split; [|split; [|split]].
  - destruct (get_boot_cmdline_root
                (Examples.descriptor None (Some "ec2") (Some " root=/dev/vda2 quiet ") None [])
                " root=/dev/vda2 quiet " eq_refl) as (H & _).
    apply H. reflexivity.
  - destruct (get_boot_cmdline_root Examples.ec2_descriptor "console=ttyS0 " eq_refl)
      as (_ & H & _).
    apply H; reflexivity.
  - destruct (get_boot_cmdline_root
                (Examples.descriptor None (Some "ec2hvm") (Some "") None [])
                "" eq_refl) as (_ & _ & H & _).
    apply H; reflexivity.
  - destruct (get_boot_cmdline_root Examples.btrfs_descriptor "splash" eq_refl)
      as (_ & _ & _ & H).
    apply H; [reflexivity|discriminate|discriminate].
Defined.

(** C2 at work: the five ways out of [get_boot_path]. *)
Lemma get_boot_path_cases_witness :
  get_boot_path (λ _ _, true) Examples.btrfs_descriptor "iso" = Ok "/boot"
  ∧ get_boot_path (λ _ _, true) Examples.btrfs_descriptor "disk" = Ok "/"
  ∧ get_boot_path (λ _ _, false) Examples.btrfs_descriptor "disk" = Ok "/@/boot"
  ∧ get_boot_path (λ _ _, false) Examples.ec2_descriptor "disk" = Ok "/boot"
  ∧ get_boot_path (λ _ _, false) Examples.ec2_descriptor "usb"
    = Raise (KiwiBootLoaderTargetError "Invalid boot loader target usb").
Proof.
  split; [|split; [|split; [|split]]].
  - destruct (get_boot_path_cases (λ _ _, true) Examples.btrfs_descriptor "iso")
      as (H & _).
    apply H. reflexivity.
  - destruct (get_boot_path_cases (λ _ _, true) Examples.btrfs_descriptor "disk")
      as (_ & H & _).
    apply H; reflexivity.
  - destruct (get_boot_path_cases (λ _ _, false) Examples.btrfs_descriptor "disk")
      as (_ & _ & H & _).
    apply H; [reflexivity|reflexivity|]. split; [reflexivity|discriminate].
  - destruct (get_boot_path_cases (λ _ _, false) Examples.ec2_descriptor "disk")
      as (_ & _ & _ & H & _).
    apply H; [reflexivity|reflexivity|]. intros [? _]. discriminate.
  - destruct (get_boot_path_cases (λ _ _, false) Examples.ec2_descriptor "usb")
      as (_ & _ & _ & _ & H).
    apply H; discriminate.
Defined.

End BootLoaderFacts.

(** ** Facts about paths and the hierarchy sort *)

Module PathFacts.
Import Path.

Lemma prefix_app (a r : string) : String.prefix a (a +:+ r) = true.
Proof.
  induction a as [|c a IH]; simpl.
  - by destruct r.
  - rewrite ?PyFacts.app_cons. destruct (ascii_dec c c); [exact IH|done].
Qed.

Lemma prefix_inv (a d : string) :
  String.prefix a d = true → ∃ r, d = a +:+ r.
Proof.
  revert d. induction a as [|c a IH]; intros d Hp.
  - by exists d.
  - destruct d as [|c' d]; [done|]. simpl in Hp.
    destruct (ascii_dec c c') as [->|]; [|done].
    destruct (IH d Hp) as [r ->]. by exists r.
Qed.

Lemma le_app (a r : string) : String.le a (a +:+ r).
Proof.
  unfold String.le, String.leb.
  induction a as [|c a IH]; simpl.
  - by destruct r.
  - rewrite ?PyFacts.app_cons. simpl.
    assert (Ascii.compare c c = Eq) as ->; [|exact IH].
    unfold Ascii.compare. by rewrite N.compare_refl.
Qed.

Lemma split_nonempty (c : ascii) (s : string) : Py.split c s ≠ [].
Proof.
  induction s as [|x s IH]; simpl; [done|].
  destruct (Ascii.eqb x c); [done|]. by destruct (Py.split c s).
Qed.

Lemma length_split_app (c : ascii) (a r : string) :
  length (Py.split c (a +:+ r)) =
  (length (Py.split c a) + length (Py.split c r) - 1)%nat.
Proof.
  induction a as [|x a IH].
  - simpl. rewrite ?PyFacts.app_empty_l. lia.
  - rewrite ?PyFacts.app_cons. simpl. destruct (Ascii.eqb x c).
    + simpl. rewrite IH.
      pose proof (split_nonempty c a). destruct (Py.split c a); [done|].
      simpl. lia.
    + pose proof (split_nonempty c (a +:+ r)) as H1.
      pose proof (split_nonempty c a) as H2.
      destruct (Py.split c (a +:+ r)) eqn:E1; [done|].
      destruct (Py.split c a) eqn:E2; [done|].
      simpl in *. lia.
Qed.

(** a path is at least as deep as any of its prefixes *)
Lemma depth_app (a r : string) : (depth a ≤ depth (a +:+ r))%nat.
Proof.
  unfold depth. rewrite length_split_app.
  pose proof (split_nonempty "/" r). destruct (Py.split "/" r); [done|].
  simpl. lia.
Qed.

Lemma ancestor_prefix (a d : string) :
  ancestor a d → a ≠ d ∧ ∃ r, d = a +:+ r.
Proof.
  intros [Hne [[rest ->]|[-> [rest ->]]]]; (split; [done|]); eauto.
Qed.

Lemma ancestorb_spec (a d : string) : ancestorb a d = true ↔ ancestor a d.
Proof.
  unfold ancestorb, ancestor. split.
  - intros [Hne H]%andb_prop. split.
    { apply negb_true_iff, bool_decide_eq_false in Hne. done. }
    apply orb_prop in H as [H|[H1 H2]%andb_prop].
    + left. apply prefix_inv in H as [r ->]. exists r.
      clear. induction a as [|c a IH]; [done|].
      rewrite ?PyFacts.app_cons. by f_equal.
    + right. apply bool_decide_eq_true in H1.
      apply prefix_inv in H2 as [r ->]. eauto.
  - intros [Hne H]. apply andb_true_intro. split.
    { by apply negb_true_iff, bool_decide_eq_false. }
    apply orb_true_intro. destruct H as [[rest ->]|[-> [rest ->]]].
    + left. replace (a +:+ "/" +:+ rest) with ((a +:+ "/") +:+ rest).
      { apply prefix_app. }
      clear. induction a as [|c a IH]; [done|].
      rewrite ?PyFacts.app_cons. by f_equal.
    + right. rewrite bool_decide_eq_true_2 by done. apply prefix_app.
Qed.

Lemma insert_by_depth_perm (x : string) (l : list string) :
  insert_by_depth x l ≡ₚ x :: l.
Proof.
  induction l as [|y l IH]; simpl; [done|].
  destruct (depth x <=? depth y)%nat; [done|].
  rewrite IH. apply perm_swap.
Qed.

(** the hierarchy sort only reorders *)
Lemma sort_by_hierarchy_perm (l : list string) : sort_by_hierarchy l ≡ₚ l.
Proof.
  induction l as [|x l IH]; simpl; [done|].
  by rewrite insert_by_depth_perm, IH.
Qed.

Lemma insert_by_depth_sublist (x : string) (l : list string) :
  l `sublist_of` insert_by_depth x l.
Proof.
  induction l as [|y l IH]; simpl.
  - apply sublist_nil_l.
  - destruct (depth x <=? depth y)%nat.
    + by apply sublist_cons.
    + by apply sublist_skip.
Qed.

Lemma insert_by_depth_front (x d : string) (l : list string) :
  d ∈ l → (depth x ≤ depth d)%nat → precedes x d (insert_by_depth x l).
Proof.
  unfold precedes. induction l as [|y l IH]; intros Hd Hle; simpl.
  - by apply elem_of_nil in Hd.
  - destruct (Nat.leb_spec (depth x) (depth y)).
    + apply sublist_skip. by apply singleton_sublist_l.
    + apply elem_of_cons in Hd as [->|Hd]; [lia|].
      apply sublist_cons. by apply IH.
Qed.

(** the hierarchy sort is stable: two paths the first of which is not
    the deeper one keep their order *)
Lemma sort_by_hierarchy_stable (a d : string) (l : list string) :
  precedes a d l → (depth a ≤ depth d)%nat →
  precedes a d (sort_by_hierarchy l).
Proof.
  unfold precedes. induction l as [|x l IH]; intros Hp Hle.
  - by apply sublist_nil_r in Hp.
  - simpl. apply sublist_cons_r in Hp as [Hp|(l' & [= <- <-] & Hd)].
    + etrans; [by apply IH|]. apply insert_by_depth_sublist.
    + apply insert_by_depth_front; [|done].
      rewrite sort_by_hierarchy_perm. by apply singleton_sublist_l.
Qed.

(** in a list in ascending order a path comes after its proper prefixes *)
Lemma sorted_precedes (a r : string) (l : list string) :
  StronglySorted String.le l → a ∈ l → a +:+ r ∈ l → a ≠ a +:+ r →
  precedes a (a +:+ r) l.
Proof.
  unfold precedes. intros Hs Ha Hd Hne.
  induction Hs as [|x l Hs IH Hall].
  - by apply elem_of_nil in Ha.
  - apply elem_of_cons in Ha as [<-|Ha].
    + apply elem_of_cons in Hd as [?|Hd]; [done|].
      apply sublist_skip. by apply singleton_sublist_l.
    + apply elem_of_cons in Hd as [<-|Hd].
      * rewrite Forall_forall in Hall. pose proof (Hall _ Ha) as Hle.
        destruct Hne. apply (anti_symm String.le); [apply le_app|done].
      * apply sublist_cons. by apply IH.
Qed.

(** The hierarchy sort of a list in ascending order puts every path
    after its ancestors. *)
Lemma sort_by_hierarchy_ancestor_first (a d : string) (l : list string) :
  StronglySorted String.le l → a ∈ l → d ∈ l → ancestor a d →
  precedes a d (sort_by_hierarchy l).
Proof.
  intros Hs Ha Hd [Hne [r ->]]%ancestor_prefix.
  apply sort_by_hierarchy_stable; [|apply depth_app].
  by apply sorted_precedes.
Qed.

End PathFacts.

(** ** The volume manager *)

Module VolumeFacts.
Import VolumeManagerBase.

(** *** The size of a volume *)

(** what the loop of [get_volume_mbsize] leaves out: the other volumes
    when the lookup path is the root, and otherwise the other volumes
    whose path starts with the characters of the lookup path *)
Lemma exclude_loop_filter (root lookup : string) (vols : list volume)
    (acc : list string) :
  exclude_loop root lookup vols acc =
  acc ++ ((λ v, Path.normpath (root +:+ Path.sep +:+ realpath v)) <$>
    filter (λ v, lookup ≠ realpath v
                 ∧ (lookup = Path.sep ∨ Py.startswith (realpath v) lookup = true))
           vols).
Proof.
  revert acc. induction vols as [|v vols IH]; intros acc; simpl.
  - by rewrite app_nil_r.
  - case_bool_decide as H1.
    { rewrite filter_cons_False; [apply IH|]. by intros [? _]. }
    case_bool_decide as H2.
    { rewrite filter_cons_True; [|by auto].
      rewrite IH, fmap_cons, <-app_assoc. done. }
    destruct (Py.startswith (realpath v) lookup) eqn:H3.
    + rewrite filter_cons_True; [|by auto].
      rewrite IH, fmap_cons, <-app_assoc. done.
    + rewrite filter_cons_False; [apply IH|].
      intros [_ [?|?]]; congruence.
Qed.

(** the volumes below the lookup path in the hierarchy are left out *)
Lemma exclude_loop_descendant (root lookup : string) (vols : list volume)
    (v : volume) :
  v ∈ vols → Path.ancestor lookup (realpath v) →
  Path.normpath (root +:+ Path.sep +:+ realpath v)
    ∈ exclude_loop root lookup vols [].
Proof.
  intros Hv Hanc. rewrite exclude_loop_filter. simpl.
  apply list_elem_of_fmap. exists v. split; [done|].
  apply list_elem_of_filter. split; [|done].
  destruct (PathFacts.ancestor_prefix _ _ Hanc) as [Hne [r Hr]].
  split; [done|]. right. unfold Py.startswith. rewrite Hr.
  apply PathFacts.prefix_app.
Qed.

(** the size of a volume outside of an oem build whose spec is not of
    the type freespace: the text after the colon *)
Lemma get_volume_mbsize_fixed (sz : sizing) (self : t) (v : volume)
    (all_volumes : list volume) (fs : string) (image_type : option string)
    (size_type mbsize : string) :
  Py.split ":" (size v) = [size_type; mbsize] →
  image_type ≠ Some "oem" → size_type ≠ "freespace" →
  get_volume_mbsize sz self v all_volumes fs image_type = Ok (Py.Str mbsize).
Proof.
  intros Hs Hi Ht. unfold get_volume_mbsize. rewrite Hs.
  rewrite (bool_decide_eq_false_2 _ Hi). simpl.
  by rewrite (bool_decide_eq_false_2 _ Ht).
Qed.

(** C1 fails on the code: sizing [/var] next to [/var2] and [/var/log]
    leaves out the tree of [/var2] as well, which is no descendant of
    [/var] but starts with its characters. *)
Theorem get_volume_mbsize_excludes_sibling (sz : sizing) (fs : string) :
  let all_volumes := [Examples.LVvar; Examples.LVvar2; Examples.LVvar_log] in
  let self := Examples.manager None all_volumes in
  Path.ancestorb "/var" "/var2" = false ∧
  exclude_loop (root_dir self) "/var" all_volumes []
    = ["/tmp/root/var2"; "/tmp/root/var/log"] ∧
  get_volume_mbsize sz self Examples.LVvar all_volumes fs None
    = Ok (Py.Int (100 + get_min_volume_mbytes sz
                  + customize sz
                      (accumulate_mbyte_file_sizes sz "/tmp/root/var"
                         ["/tmp/root/var2"; "/tmp/root/var/log"]) fs)).
Proof. done. Qed.

(** C6: in an oem build the size of a volume is the minimum size of a
    volume plus what [SystemSize] makes of the measured usage for the
    filesystem, the zero of the oem build being the only extra; the
    type and the value of the declared spec do not enter. *)
Theorem get_volume_mbsize_oem (sz : sizing) (self : t) (v : volume)
    (all_volumes : list volume) (fs size_type mbsize : string) :
  Py.split ":" (size v) = [size_type; mbsize] →
  get_volume_mbsize sz self v all_volumes fs (Some "oem")
  = Ok (Py.Int
          (0 + get_min_volume_mbytes sz
           + customize sz
               (accumulate_mbyte_file_sizes sz
                  (Path.normpath (root_dir self +:+ Path.sep +:+ realpath v))
                  (exclude_loop (root_dir self) (realpath v) all_volumes []))
               fs)).
Proof. intros Hs. unfold get_volume_mbsize. by rewrite Hs. Qed.

(** C9 fails on the code: for the spec [size:500] outside of an oem
    build the text of the value comes back, not the integer 500. *)
Theorem get_volume_mbsize_fixed_is_text (sz : sizing) (fs : string) :
  let all_volumes := [Examples.LVvar; Examples.LVopt] in
  let self := Examples.manager None all_volumes in
  size Examples.LVopt = "size:500" ∧
  get_volume_mbsize sz self Examples.LVopt all_volumes fs None
    = Ok (Py.Str "500") ∧
  get_volume_mbsize sz self Examples.LVopt all_volumes fs None
    ≠ Ok (Py.Int 500).
Proof. done. Qed.

(** *** The canonical volume list *)

Lemma NoDup_fmap_eq {A B : Type} (f : A → B) (l : list A) (x y : A) :
  NoDup (f <$> l) → x ∈ l → y ∈ l → f x = f y → x = y.
Proof.
  induction l as [|z l IH]; intros Hnd Hx Hy Hf.
  - by apply elem_of_nil in Hx.
  - rewrite fmap_cons in Hnd. apply NoDup_cons in Hnd as [Hz Hnd].
    apply elem_of_cons in Hx as [->|Hx]; apply elem_of_cons in Hy as [->|Hy];
      [done| | |by apply IH].
    + destruct Hz. rewrite Hf. by apply list_elem_of_fmap_2.
    + destruct Hz. rewrite <-Hf. by apply list_elem_of_fmap_2.
Qed.

(** what the first loop of [get_canonical_volume_list] has collected
    once it is through the volumes *)
Lemma canonical_fold (vols : list volume) :
  ∃ m : gmap string volume,
    fold_left canonical_step vols (∅, None) = (m, last (filter flagged vols))
    ∧ (∀ k v, m !! k = Some v →
         v ∈ vols ∧ fullsize v = false ∧ realpath v = k ∧ k ≠ "")
    ∧ (∀ v, v ∈ vols → fullsize v = false → realpath v ≠ "" →
         is_Some (m !! realpath v)).
Proof.
  induction vols as [|x vols IH] using rev_ind.
  - exists ∅. split; [done|]. split.
    + intros k v Hk. by rewrite lookup_empty in Hk.
    + intros v Hv. by apply elem_of_nil in Hv.
  - destruct IH as (m & Hfold & Hin & Hcov).
    rewrite fold_left_app, Hfold, filter_app. simpl.
    destruct (fullsize x) eqn:Hfull.
    + exists m. rewrite filter_cons_True by done.
      rewrite filter_nil, last_snoc. split; [done|]. split.
      * intros k v Hk. destruct (Hin k v Hk) as (?&?&?&?).
        repeat split; try done. apply elem_of_app. by left.
      * intros v [Hv|Hv%list_elem_of_singleton]%elem_of_app Hf Hp.
        -- by apply Hcov.
        -- subst v. congruence.
    + rewrite filter_cons_False by (unfold flagged; congruence).
      rewrite filter_nil, app_nil_r.
      case_bool_decide as Hpath; simpl.
      * exists m. split; [done|]. split.
        -- intros k v Hk. destruct (Hin k v Hk) as (?&?&?&?).
           repeat split; try done. apply elem_of_app. by left.
        -- intros v [Hv|Hv%list_elem_of_singleton]%elem_of_app Hf Hp.
           ++ by apply Hcov.
           ++ by subst v.
      * exists (<[realpath x := x]> m). split; [done|]. split.
        -- intros k v Hk. destruct (decide (realpath x = k)) as [<-|Hne].
           ++ rewrite lookup_insert_eq in Hk. injection Hk as <-.
              repeat split; try done.
              apply elem_of_app. right. by apply list_elem_of_singleton.
           ++ rewrite lookup_insert_ne in Hk by done.
              destruct (Hin k v Hk) as (?&?&?&?).
              repeat split; try done. apply elem_of_app. by left.
        -- intros v Hv Hf Hp.
           destruct (decide (realpath x = realpath v)) as [->|Hne].
           ++ rewrite lookup_insert_eq. by eexists.
           ++ rewrite lookup_insert_ne by done.
              apply elem_of_app in Hv as [Hv|Hv%list_elem_of_singleton].
              ** by apply Hcov.
              ** by subst v.
Qed.

Lemma rmapM_getitem (m : gmap string volume) (ks : list string) :
  (∀ k, k ∈ ks → is_Some (m !! k)) →
  ∃ vl, rmapM (getitem m) ks = Ok vl ∧ Forall2 (λ k v, m !! k = Some v) ks vl.
Proof.
  induction ks as [|k ks IH]; intros Hks.
  - exists []. by split.
  - destruct IH as (vl & Hvl & Hall).
    { intros k' Hk'. apply Hks. by right. }
    destruct (Hks k) as [v Hv]; [by left|].
    exists (v :: vl). split; [|by constructor].
    simpl. unfold getitem at 1. rewrite Hv. simpl. by rewrite Hvl.
Qed.

Lemma elem_of_keys (m : gmap string volume) (k : string) :
  k ∈ Path.sort_by_hierarchy (sorted (map_to_list m).*1) ↔ is_Some (m !! k).
Proof.
  rewrite PathFacts.sort_by_hierarchy_perm. unfold sorted.
  rewrite merge_sort_Permutation, list_elem_of_fmap. split.
  - intros ([k' v] & -> & Hkv). apply elem_of_map_to_list in Hkv. by eexists.
  - intros [v Hv]. exists (k, v). split; [done|].
    by apply elem_of_map_to_list.
Qed.

(** [get_canonical_volume_list] returns, and what it returns is read
    off the dictionary of the first loop: the volumes under its keys, in
    the order of the sorted keys *)
Lemma get_canonical_volume_list_Ok (self : t) :
  ∃ (m : gmap string volume) (vl : list volume),
    get_canonical_volume_list self
      = Ok {| volumes := vl;
              full_size_volume := last (filter flagged (self_volumes self)) |}
    ∧ Forall2 (λ k v, m !! k = Some v)
        (Path.sort_by_hierarchy (sorted (map_to_list m).*1)) vl
    ∧ (∀ k v, m !! k = Some v →
         v ∈ self_volumes self ∧ fullsize v = false ∧ realpath v = k ∧ k ≠ "")
    ∧ (∀ v, v ∈ self_volumes self → fullsize v = false → realpath v ≠ "" →
         is_Some (m !! realpath v)).
Proof.
  destruct (canonical_fold (self_volumes self)) as (m & Hfold & Hin & Hcov).
  destruct (rmapM_getitem m (Path.sort_by_hierarchy (sorted (map_to_list m).*1)))
    as (vl & Hvl & Hall).
  { intros k. by rewrite elem_of_keys. }
  exists m, vl.
  split; [|split; [exact Hall|split; [exact Hin|exact Hcov]]].
  unfold get_canonical_volume_list. rewrite Hfold, Hvl. done.
Qed.

Lemma Forall2_realpath (m : gmap string volume) (ks : list string)
    (vl : list volume) :
  (∀ k v, m !! k = Some v → realpath v = k) →
  Forall2 (λ k v, m !! k = Some v) ks vl → realpath <$> vl = ks.
Proof.
  intros Hm Hall. induction Hall as [|k v ks vl Hkv Hall IH]; [done|].
  rewrite fmap_cons, IH. f_equal. by apply Hm.
Qed.

Lemma Forall2_elem_of_r {A B : Type} (P : A → B → Prop) (ks : list A)
    (vl : list B) (v : B) :
  Forall2 P ks vl → v ∈ vl → ∃ k, k ∈ ks ∧ P k v.
Proof.
  induction 1 as [|k v' ks vl Hkv Hall IH]; intros Hv.
  - by apply elem_of_nil in Hv.
  - apply elem_of_cons in Hv as [->|Hv].
    + exists k. split; [by left|done].
    + destruct (IH Hv) as (k' & ? & ?). exists k'. split; [by right|done].
Qed.

Lemma Forall2_elem_of_l {A B : Type} (P : A → B → Prop) (ks : list A)
    (vl : list B) (k : A) :
  Forall2 P ks vl → k ∈ ks → ∃ v, v ∈ vl ∧ P k v.
Proof.
  induction 1 as [|k' v ks vl Hkv Hall IH]; intros Hk.
  - by apply elem_of_nil in Hk.
  - apply elem_of_cons in Hk as [->|Hk].
    + exists v. split; [by left|done].
    + destruct (IH Hk) as (v' & ? & ?). exists v'. split; [by right|done].
Qed.

Lemma last_flagged (pre post : list volume) (v : volume) :
  fullsize v = true → Forall (λ v, fullsize v = false) post →
  last (filter flagged (pre ++ v :: post)) = Some v.
Proof.
  intros Hv Hpost. rewrite filter_app, filter_cons_True by done.
  assert (filter flagged post = []) as ->; [|apply last_snoc].
  induction Hpost as [|x post Hx Hpost IH]; [done|].
  rewrite filter_cons_False; [done|]. unfold flagged. congruence.
Qed.

(** C5, as the code has it: when the realpaths are unique, the call
    returns the ordered list of exactly the volumes that are not flagged
    fullsize and have a realpath, each once, and apart from it the last
    volume flagged fullsize, if there is one, which is not in the list;
    the realpaths of the list are the hierarchy sort of their ascending
    order, in which every ancestor comes before its descendants. *)
Theorem get_canonical_volume_list_partition (self : t) :
  NoDup (realpath <$> self_volumes self) →
  ∃ r, get_canonical_volume_list self = Ok r
    ∧ (∀ v, v ∈ volumes r ↔
            v ∈ self_volumes self ∧ fullsize v = false ∧ realpath v ≠ "")
    ∧ NoDup (volumes r)
    ∧ full_size_volume r = last (filter flagged (self_volumes self))
    ∧ (∀ v, full_size_volume r = Some v →
            v ∈ self_volumes self ∧ fullsize v = true ∧ v ∉ volumes r)
    ∧ (∃ s, StronglySorted String.le s
            ∧ s ≡ₚ realpath <$> volumes r
            ∧ realpath <$> volumes r = Path.sort_by_hierarchy s)
    ∧ (∀ a d, a ∈ volumes r → d ∈ volumes r →
            Path.ancestor (realpath a) (realpath d) →
            Path.precedes (realpath a) (realpath d) (realpath <$> volumes r)).
Proof.
  intros Hnd.
  destruct (get_canonical_volume_list_Ok self)
    as (m & vl & Hget & Hall & Hin & Hcov).
  assert (realpath <$> vl = Path.sort_by_hierarchy (sorted (map_to_list m).*1))
    as Hpaths.
  { apply (Forall2_realpath m); [|done]. intros k v Hk. by apply Hin. }
  assert (∀ v, v ∈ vl ↔
            v ∈ self_volumes self ∧ fullsize v = false ∧ realpath v ≠ "")
    as Hmem.
  { intros v. split.
    - intros Hv. destruct (Forall2_elem_of_r _ _ _ _ Hall Hv) as (k & _ & Hk).
      destruct (Hin k v Hk) as (?&?&?&?). by subst k.
    - intros (Hv & Hf & Hp). destruct (Hcov v Hv Hf Hp) as [v' Hv'].
      assert (v' = v) as ->.
      { destruct (Hin _ _ Hv') as (?&?&?&?).
        by apply (NoDup_fmap_eq realpath (self_volumes self)). }
      assert (realpath v ∈ Path.sort_by_hierarchy (sorted (map_to_list m).*1))
        as Hk by (apply elem_of_keys; by eexists).
      destruct (Forall2_elem_of_l _ _ _ _ Hall Hk) as (v'' & Hv'' & Hk'').
      congruence. }
  eexists. split; [exact Hget|]. simpl.
  split; [exact Hmem|]. split.
  { apply (NoDup_fmap_1 realpath). rewrite Hpaths.
    rewrite PathFacts.sort_by_hierarchy_perm. unfold sorted.
    rewrite merge_sort_Permutation. apply NoDup_fst_map_to_list. }
  split; [done|]. split.
  { intros v Hv. apply last_Some_elem_of, list_elem_of_filter in Hv as [Hf Hv].
    split; [done|]. split; [done|].
    intros (_ & Hf' & _)%Hmem. unfold flagged in Hf. congruence. }
  split.
  { exists (sorted (map_to_list m).*1). split; [|split; [|done]].
    - apply StronglySorted_merge_sort; apply _.
    - by rewrite Hpaths, PathFacts.sort_by_hierarchy_perm. }
  intros a d Ha Hd Hanc. rewrite Hpaths.
  apply PathFacts.sort_by_hierarchy_ancestor_first; [| | |done].
  - apply StronglySorted_merge_sort; apply _.
  - rewrite <-(PathFacts.sort_by_hierarchy_perm (sorted _)), <-Hpaths.
    by apply list_elem_of_fmap_2.
  - rewrite <-(PathFacts.sort_by_hierarchy_perm (sorted _)), <-Hpaths.
    by apply list_elem_of_fmap_2.
Qed.

(** C8: with several volumes flagged fullsize the fullsize result is the
    last of them in the order of the volumes, and an earlier flagged one
    is not in the ordered list and, being another volume than the last,
    is not the fullsize result either. *)
Theorem get_canonical_volume_list_last_fullsize (self : t)
    (pre post : list volume) (final : volume) :
  self_volumes self = pre ++ final :: post →
  fullsize final = true →
  Forall (λ v, fullsize v = false) post →
  ∃ r, get_canonical_volume_list self = Ok r
    ∧ full_size_volume r = Some final
    ∧ (∀ e, e ∈ pre → fullsize e = true →
         (e ∉ volumes r) ∧ (e ≠ final → full_size_volume r ≠ Some e)).
Proof.
  intros Hvols Hfinal Hpost.
  destruct (get_canonical_volume_list_Ok self)
    as (m & vl & Hget & Hall & Hin & _).
  rewrite Hvols, last_flagged in Hget by done.
  eexists. split; [exact Hget|]. simpl. split; [done|].
  intros e He Hfe. split.
  - intros Hvl. destruct (Forall2_elem_of_r _ _ _ _ Hall Hvl) as (k & _ & Hk).
    destruct (Hin k e Hk) as (_ & Hf & _). congruence.
  - intros Hne [= ->]. done.
Qed.

(** *** Synchronisation of the data *)

(** with the hooks of the base class itself and a mount root set up,
    [sync_data] ends in the error of a hook that is not implemented, or in
    that of the copy *)
Lemma sync_data_base_raises {W : Type} (is_mounted : string → W → bool)
    (data_sync : string → string → list string → option (list string) → W → result W)
    (self : t) (exclude : option (list string)) (mp : string) (w : W) :
  self_mountpoint self = Some mp → mp ≠ "" →
  ∃ e, sync_data (base_backend is_mounted data_sync) self exclude w = Raise e.
Proof.
  intros Hmp Hne. unfold sync_data. rewrite Hmp.
  destruct mp as [|c mp]; [done|]. simpl.
  destruct (is_mounted (String c mp) w); simpl; [|by eexists].
  destruct (data_sync _ _ _ _ w); simpl; by eexists.
Qed.

(** [sync_data] comes back whenever the hooks it calls do *)
Lemma sync_data_completes {W : Type} (b : backend W) (self : t)
    (exclude : option (list string)) (w : W) :
  (∀ w, ∃ w', mount_volumes b w = Ok w') →
  (∀ s t o e w, ∃ w', data_sync b s t o e w = Ok w') →
  (∀ w, ∃ w', umount_volumes b w = Ok w') →
  ∃ w', sync_data b self exclude w = Ok w'.
Proof.
  intros Hm Hs Hu. unfold sync_data.
  destruct (self_mountpoint self) as [[|c mp]|]; [by eexists| |by eexists].
  destruct (is_mounted b (String c mp) w); simpl.
  - destruct (Hs (root_dir self) (String c mp) sync_options exclude w)
      as [w2 ->]. simpl. apply Hu.
  - destruct (Hm w) as [w1 ->]. simpl.
    destruct (Hs (root_dir self) (String c mp) sync_options exclude w1)
      as [w2 ->]. simpl. apply Hu.
Qed.

(** C7: with a mount root set up, and with hooks of a volume manager
    whose [umount_volumes] leaves nothing mounted below the mount root, a
    [sync_data] that comes back has mounted the volumes unless they were
    mounted, has then copied the root tree to the mount root with the
    exclude list it was given, has unmounted the volumes last, and
    leaves them unmounted. *)
Theorem sync_data_leaves_unmounted {W : Type} (b : backend W) (self : t)
    (exclude : option (list string)) (mp : string) (w w' : W) :
  self_mountpoint self = Some mp → mp ≠ "" →
  (∀ w0 w1, umount_volumes b w0 = Ok w1 → is_mounted b mp w1 = false) →
  sync_data b self exclude w = Ok w' →
  is_mounted b mp w' = false
  ∧ ∃ w1 w2,
      (if is_mounted b mp w then w1 = w else mount_volumes b w = Ok w1)
      ∧ data_sync b (root_dir self) mp sync_options exclude w1 = Ok w2
      ∧ umount_volumes b w2 = Ok w'.
Proof.
  intros Hmp Hne Humount. unfold sync_data. rewrite Hmp.
  destruct mp as [|c mp]; [done|].
  destruct (is_mounted b (String c mp) w) eqn:Hm; simpl.
  - destruct (data_sync b _ _ _ _ w) as [w2|] eqn:Hs; simpl; [|done].
    intros Hu. split; [by eapply Humount|]. by exists w, w2.
  - destruct (mount_volumes b w) as [w1|] eqn:Hmount; simpl; [|done].
    destruct (data_sync b _ _ _ _ w1) as [w2|] eqn:Hs; simpl; [|done].
    intros Hu. split; [by eapply Humount|]. by exists w1, w2.
Qed.

(** on the recording system: the calls [sync_data] makes, in order *)
Lemma sync_data_calls (self : t) (exclude : option (list string))
    (mp : string) (w : Examples.world) :
  self_mountpoint self = Some mp → mp ≠ "" →
  sync_data Examples.recorder self exclude w
  = Ok {| Examples.mounted := false;
          Examples.calls :=
            Examples.calls w
            ++ (if Examples.mounted w then [] else [Examples.CallMount])
            ++ [Examples.CallSync (root_dir self) mp sync_options exclude;
                Examples.CallUmount] |}.
Proof.
  intros Hmp Hne. unfold sync_data. rewrite Hmp.
  destruct mp as [|c mp]; [done|]. simpl.
  destruct (Examples.mounted w); simpl; by rewrite <-?app_assoc.
Qed.

(** C6 at work: an oem build sizes [/opt], declared [size:500], to the
    minimum of 30 and the customized measurement of 15. *)
Lemma get_volume_mbsize_oem_witness :
  get_volume_mbsize Examples.sizing0
    (Examples.manager None [Examples.LVvar; Examples.LVopt])
    Examples.LVopt [Examples.LVvar; Examples.LVopt] "ext4" (Some "oem")
  = Ok (Py.Int 45).
Proof.
  exact (get_volume_mbsize_oem Examples.sizing0
           (Examples.manager None [Examples.LVvar; Examples.LVopt])
           Examples.LVopt [Examples.LVvar; Examples.LVopt] "ext4"
           "size" "500" eq_refl).
Defined.

(** C5 fails as it is stated: a volume that is not flagged fullsize and
    has no realpath is in the volume set and not in the ordered list. *)
Lemma get_canonical_volume_list_skips_no_realpath :
  ¬ (∀ r, get_canonical_volume_list
            (Examples.manager None [Examples.LVvar; Examples.LVnopath]) = Ok r →
          ∀ v, v ∈ [Examples.LVvar; Examples.LVnopath] →
               fullsize v = false → v ∈ volumes r).
Proof.
  intros H.
  specialize (H {| volumes := [Examples.LVvar]; full_size_volume := None |}
                eq_refl Examples.LVnopath).
  assert (Examples.LVnopath ∈ [Examples.LVvar]) as Hin.
  { apply H; [|reflexivity]. right. left. }
  apply list_elem_of_singleton in Hin. discriminate Hin.
Qed.

(** C5 at work on [/var/log], [/var], [/opt] and the fullsize [/]. *)
Lemma get_canonical_volume_list_partition_witness :
  get_canonical_volume_list
    (Examples.manager None
       [Examples.LVvar_log; Examples.LVvar; Examples.LVRoot; Examples.LVopt])
  = Ok {| volumes := [Examples.LVopt; Examples.LVvar; Examples.LVvar_log];
          full_size_volume := Some Examples.LVRoot |}
  ∧ ∃ r, get_canonical_volume_list
           (Examples.manager None
              [Examples.LVvar_log; Examples.LVvar; Examples.LVRoot; Examples.LVopt])
         = Ok r
      ∧ (∀ a d, a ∈ volumes r → d ∈ volumes r →
           Path.ancestor (realpath a) (realpath d) →
           Path.precedes (realpath a) (realpath d) (realpath <$> volumes r)).
Proof.
  split; [reflexivity|].
  destruct (get_canonical_volume_list_partition
              (Examples.manager None
                 [Examples.LVvar_log; Examples.LVvar; Examples.LVRoot; Examples.LVopt]))
    as (r & Hr & _ & _ & _ & _ & _ & Hord).
  - apply (bool_decide_unpack _). reflexivity.
  - exists r. split; [exact Hr|exact Hord].
Defined.

(** C8 at work: [/home] and [/] are both flagged fullsize, [/] last. *)
Lemma get_canonical_volume_list_last_fullsize_witness :
  ∃ r, get_canonical_volume_list
         (Examples.manager None
            [Examples.LVhome; Examples.LVvar; Examples.LVRoot; Examples.LVopt])
       = Ok r
    ∧ full_size_volume r = Some Examples.LVRoot
    ∧ (Examples.LVhome ∉ volumes r)
    ∧ full_size_volume r ≠ Some Examples.LVhome.
Proof.
  destruct (get_canonical_volume_list_last_fullsize
              (Examples.manager None
                 [Examples.LVhome; Examples.LVvar; Examples.LVRoot; Examples.LVopt])
              [Examples.LVhome; Examples.LVvar] [Examples.LVopt] Examples.LVRoot
              eq_refl eq_refl)
    as (r & Hr & Hfull & Hpre).
  - repeat constructor.
  - exists r. split; [exact Hr|]. split; [exact Hfull|].
    destruct (Hpre Examples.LVhome) as [Hnot Hne]; [left|reflexivity|].
    split; [exact Hnot|]. apply Hne. discriminate.
Defined.

(** C7 at work on the recording system, the volumes not mounted at the
    start. *)
Lemma sync_data_leaves_unmounted_witness :
  let self := Examples.manager (Some "/tmp/kiwi_volumes.a1") [Examples.LVvar] in
  let w := {| Examples.mounted := false; Examples.calls := [] |} in
  let w' :=
    {| Examples.mounted := false;
       Examples.calls :=
         [Examples.CallMount;
          Examples.CallSync "/tmp/root" "/tmp/kiwi_volumes.a1" sync_options
            (Some ["/tmp/*"]);
          Examples.CallUmount] |} in
  sync_data Examples.recorder self (Some ["/tmp/*"]) w = Ok w'
  ∧ is_mounted Examples.recorder "/tmp/kiwi_volumes.a1" w' = false.
Proof.
  intros self w w'. split; [reflexivity|].
  apply (sync_data_leaves_unmounted Examples.recorder self (Some ["/tmp/*"])
           "/tmp/kiwi_volumes.a1" w w').
  - reflexivity.
  - discriminate.
  - intros w0 w1 [= <-]. reflexivity.
  - reflexivity.
Defined.

End VolumeFacts.

(** * Further properties *)

(** ** More facts about the built-ins *)

Module PyMore.

Lemma app_assoc (a b c : string) : (a +:+ b) +:+ c = a +:+ b +:+ c.
Proof.
  induction a as [|x a IH]; [done|].
  rewrite !PyFacts.app_cons. by f_equal.
Qed.

Lemma replace_app (old new : ascii) (a b : string) :
  Py.replace old new (a +:+ b) = Py.replace old new a +:+ Py.replace old new b.
Proof.
  induction a as [|x a IH]; [done|].
  rewrite PyFacts.app_cons. cbn [Py.replace].
  rewrite PyFacts.app_cons. by f_equal.
Qed.

Lemma replace_length (old new : ascii) (s : string) :
  String.length (Py.replace old new s) = String.length s.
Proof. induction s as [|x s IH]; [done|]. simpl. by f_equal. Qed.

Lemma has_char_replace_old (old new : ascii) (s : string) :
  new ≠ old → Py.has_char old (Py.replace old new s) = false.
Proof.
  intros Hne. induction s as [|x s IH]; [done|].
  cbn [Py.replace Py.has_char]. rewrite IH, orb_false_r.
  destruct (Ascii.eqb_spec x old) as [->|Hx].
  - by apply Ascii.eqb_neq.
  - by apply Ascii.eqb_neq.
Qed.

Lemma has_char_replace_other (c old new : ascii) (s : string) :
  new ≠ c → Py.has_char c s = false →
  Py.has_char c (Py.replace old new s) = false.
Proof.
  intros Hne. induction s as [|x s IH]; [done|].
  cbn [Py.replace Py.has_char]. intros [Hx Hs]%orb_false_elim.
  rewrite (IH Hs), orb_false_r.
  destruct (Ascii.eqb x old); [by apply Ascii.eqb_neq|done].
Qed.

Lemma replace_absent (old new : ascii) (s : string) :
  Py.has_char old s = false → Py.replace old new s = s.
Proof.
  induction s as [|x s IH]; [done|].
  cbn [Py.replace Py.has_char]. intros [Hx Hs]%orb_false_elim.
  by rewrite Hx, (IH Hs).
Qed.

Lemma lstrip_fixed (s : string) : Py.lstrip (Py.lstrip s) = Py.lstrip s.
Proof.
  induction s as [|x s IH]; [done|]. simpl.
  destruct (Py.isspace x) eqn:Hx; [done|]. simpl. by rewrite Hx.
Qed.

Lemma rstrip_fixed (s : string) : Py.rstrip (Py.rstrip s) = Py.rstrip s.
Proof.
  induction s as [|x s IH]; [done|]. simpl.
  destruct (Py.rstrip s) as [|y t] eqn:Hs.
  - destruct (Py.isspace x) eqn:Hx; [done|]. simpl. by rewrite Hx.
  - cbn [Py.rstrip]. cbn [Py.rstrip] in IH. by rewrite IH.
Qed.

Lemma lstrip_rstrip (s : string) :
  Py.lstrip s = s → Py.lstrip (Py.rstrip s) = Py.rstrip s.
Proof.
  destruct s as [|x s]; [done|]. simpl.
  destruct (Py.isspace x) eqn:Hx.
  - intros Hs. exfalso.
    assert (String.length (Py.lstrip s) ≤ String.length s)%nat as Hlen.
    { clear. induction s as [|y s IH]; simpl; [lia|].
      destruct (Py.isspace y); simpl; lia. }
    rewrite Hs in Hlen. simpl in Hlen. lia.
  - intros _. destruct (Py.rstrip s); simpl; by rewrite Hx.
Qed.

(** a string that was stripped does not change when it is stripped again
    from either side *)
Lemma strip_fixed (s : string) :
  Py.lstrip (Py.strip s) = Py.strip s ∧ Py.rstrip (Py.strip s) = Py.strip s.
Proof.
  unfold Py.strip. split.
  - apply lstrip_rstrip, lstrip_fixed.
  - apply rstrip_fixed.
Qed.

Lemma contains_empty (needle : string) :
  needle ≠ "" → Py.contains needle "" = false.
Proof. by destruct needle. Qed.

Lemma contains_lstrip_true (needle s : string) (c : ascii) (n' : string) :
  needle = String c n' → Py.isspace c = false →
  Py.contains needle s = true → Py.contains needle (Py.lstrip s) = true.
Proof.
  intros -> Hc. induction s as [|x s IH]; [done|].
  intros Hs. cbn [Py.lstrip]. destruct (Py.isspace x) eqn:Hx; [|done].
  apply IH. cbn [Py.contains] in Hs.
  apply orb_prop in Hs as [Hp|Hs]; [|done].
  cbn [String.prefix] in Hp. destruct (ascii_dec c x) as [->|]; [|done].
  congruence.
Qed.

Lemma rstrip_cons (c : ascii) (s : string) :
  Py.rstrip (String c s) =
  match Py.rstrip s with
  | "" => if Py.isspace c then "" else String c ""
  | t => String c t
  end.
Proof. reflexivity. Qed.

Lemma prefix_rstrip (needle s : string) :
  needle ≠ "" → Py.rstrip needle = needle →
  String.prefix needle s = true → String.prefix needle (Py.rstrip s) = true.
Proof.
  revert s. induction needle as [|c n IH]; [done|].
  intros s _ Hn Hp. destruct s as [|x s]; [done|].
  cbn [String.prefix] in Hp. destruct (ascii_dec c x) as [<-|]; [|done].
  rewrite rstrip_cons in Hn. rewrite rstrip_cons.
  destruct n as [|c' n'].
  - simpl in Hn. destruct (Py.isspace c) eqn:Hc; [done|].
    destruct (Py.rstrip s); cbn [String.prefix];
      destruct (ascii_dec c c); done.
  - assert (Py.rstrip (String c' n') = String c' n') as Hn'.
    { destruct (Py.rstrip (String c' n')) eqn:E.
      - destruct (Py.isspace c); discriminate Hn.
      - congruence. }
    specialize (IH s ltac:(done) Hn' Hp).
    destruct (Py.rstrip s) as [|y t] eqn:Hs; [done|].
    cbn [String.prefix]. destruct (ascii_dec c c); done.
Qed.

Lemma contains_rstrip_true (needle s : string) :
  needle ≠ "" → Py.rstrip needle = needle →
  Py.contains needle s = true → Py.contains needle (Py.rstrip s) = true.
Proof.
  intros Hne Hn. induction s as [|x s IH]; [done|].
  intros Hs. cbn [Py.contains] in Hs. apply orb_prop in Hs as [Hp|Hs].
  - pose proof (prefix_rstrip _ _ Hne Hn Hp) as Hp'.
    destruct (Py.rstrip (String x s)); cbn [Py.contains]; by rewrite Hp'.
  - specialize (IH Hs). cbn [Py.rstrip].
    destruct (Py.rstrip s) as [|y t] eqn:Ht.
    + by rewrite contains_empty in IH.
    + cbn [Py.contains]. cbn [Py.contains] in IH. rewrite IH.
      apply orb_true_r.
Qed.

(** stripping keeps a [root=] there is *)
Lemma contains_root_strip (s : string) :
  Py.contains "root=" s = true → Py.contains "root=" (Py.strip s) = true.
Proof.
  intros Hs. unfold Py.strip. apply contains_rstrip_true; [done..|].
  by apply (contains_lstrip_true _ _ "r" "oot=").
Qed.

Lemma occurrences_contains (needle s : string) :
  Py.occurrences needle s ≠ 0%nat → Py.contains needle s = true.
Proof.
  induction s as [|x s IH]; cbn [Py.occurrences Py.contains].
  - destruct (String.prefix needle ""); [done|]. simpl. lia.
  - destruct (String.prefix needle (String x s)); [done|].
    simpl. intros H. by apply IH.
Qed.

(** no [root=] reaches across a blank *)
Lemma prefix_root_blank (s t : string) :
  String.prefix "root=" (s +:+ String " " t) = String.prefix "root=" s.
Proof.
  destruct s as [|a1 [|a2 [|a3 [|a4 [|a5 s]]]]];
    rewrite ?PyFacts.app_cons, ?PyFacts.app_empty_l; cbn [String.prefix];
    repeat (destruct (ascii_dec _ _); try done).
  by destruct s.
Qed.

Lemma occurrences_root_blank (s t : string) :
  Py.occurrences "root=" (s +:+ String " " t)
  = (Py.occurrences "root=" s + Py.occurrences "root=" (String " " t))%nat.
Proof.
  remember (Py.occurrences "root=" (String " " t)) as k eqn:Hk.
  induction s as [|x s IH].
  - rewrite PyFacts.app_empty_l. by subst k.
  - rewrite PyFacts.app_cons. cbn [Py.occurrences].
    rewrite <-PyFacts.app_cons, prefix_root_blank, IH. lia.
Qed.

Lemma split_app (c : ascii) (a b : string) :
  Py.split c (a +:+ String c b) = Py.split c a ++ Py.split c b.
Proof.
  induction a as [|x a IH].
  - rewrite PyFacts.app_empty_l. simpl. by rewrite Ascii.eqb_refl.
  - rewrite PyFacts.app_cons. cbn [Py.split].
    destruct (Ascii.eqb x c); [by rewrite IH|].
    rewrite IH. pose proof (PathFacts.split_nonempty c a).
    by destruct (Py.split c a).
Qed.

End PyMore.

(** ** More of the boot loader configuration *)

Module BootLoaderMore.
Import BootLoaderConfigBase.

Lemma quote_title_app (a b : string) :
  quote_title (a +:+ b) = quote_title a +:+ quote_title b.
Proof. unfold quote_title. by rewrite !PyMore.replace_app. Qed.

(** X1: a quoted title holds no blank and no square bracket, and is as
    long as the title was. *)
Theorem quote_title_clean (name : string) :
  Py.has_char " " (quote_title name) = false
  ∧ Py.has_char "[" (quote_title name) = false
  ∧ Py.has_char "]" (quote_title name) = false
  ∧ String.length (quote_title name) = String.length name.
Proof.
  unfold quote_title. split; [|split; [|split]].
  - apply PyMore.has_char_replace_other; [done|].
    apply PyMore.has_char_replace_other; [done|].
    by apply PyMore.has_char_replace_old.
  - apply PyMore.has_char_replace_other; [done|].
    by apply PyMore.has_char_replace_old.
  - by apply PyMore.has_char_replace_old.
  - by rewrite !PyMore.replace_length.
Qed.

(** X2: quoting a title twice is quoting it once, and a title without
    blanks and square brackets is left as it is. *)
Theorem quote_title_fixed (name : string) :
  quote_title (quote_title name) = quote_title name
  ∧ (Py.has_char " " name = false → Py.has_char "[" name = false →
     Py.has_char "]" name = false → quote_title name = name).
Proof.
  assert (∀ n, Py.has_char " " n = false → Py.has_char "[" n = false →
               Py.has_char "]" n = false → quote_title n = n) as Hfix.
  { intros n H1 H2 H3. unfold quote_title.
    by rewrite (PyMore.replace_absent " "), (PyMore.replace_absent "["),
      (PyMore.replace_absent "]"). }
  split; [|apply Hfix].
  unfold quote_title at 2.
  apply Hfix.
  - apply PyMore.has_char_replace_other; [done|].
    apply PyMore.has_char_replace_other; [done|].
    by apply PyMore.has_char_replace_old.
  - apply PyMore.has_char_replace_other; [done|].
    by apply PyMore.has_char_replace_old.
  - by apply PyMore.has_char_replace_old.
Qed.

(** X2 at work on the title [My [Image]]. *)
Lemma quote_title_fixed_witness :
  quote_title "My [Image]" = "My_(Image)"
  ∧ quote_title "My_(Image)" = "My_(Image)".
Proof.
  split; [reflexivity|].
  apply (quote_title_fixed "My_(Image)"); reflexivity.
Defined.

Lemma get_boot_theme_from (theme : option string) (post : list (list string)) :
  Forall (λ s, s = []) post →
  fold_left
    (fun theme section_content =>
       match section_content with
       | [] => theme
       | first :: _ => Some first
       end) post theme = theme.
Proof.
  intros Hpost. revert theme.
  induction Hpost as [|s post -> _ IH]; intros theme; [done|]. apply IH.
Qed.

(** X3: the boot theme is the first theme of the last preferences
    section that names one, and there is none exactly when no section
    names one. *)
Theorem get_boot_theme_last (preferences : list (list string)) :
  (∀ pre first rest post,
     preferences = pre ++ (first :: rest) :: post →
     Forall (λ s, s = []) post →
     get_boot_theme preferences = Some first)
  ∧ (get_boot_theme preferences = None ↔ Forall (λ s, s = []) preferences).
Proof.
  split.
  - intros pre first rest post -> Hpost. unfold get_boot_theme.
    rewrite fold_left_app. simpl. by apply get_boot_theme_from.
  - split.
    + unfold get_boot_theme.
      induction preferences as [|s prefs IH] using rev_ind; [done|].
      rewrite fold_left_app. simpl. destruct s as [|first rest]; [|done].
      intros H. apply Forall_app. split; [by apply IH|by repeat constructor].
    + intros H. unfold get_boot_theme. by apply get_boot_theme_from.
Qed.

(** X3 at work: the later section wins, sections without a theme do not
    count. *)
Lemma get_boot_theme_last_witness :
  get_boot_theme [["openSUSE"]; []; ["SLE"; "breeze"]; []] = Some "SLE".
Proof.
  apply (proj1 (get_boot_theme_last [["openSUSE"]; []; ["SLE"; "breeze"]; []])
           [["openSUSE"]; []] "SLE" ["breeze"] [[]] eq_refl).
  repeat constructor.
Defined.

(** X4: the failsafe command line fails as the boot command line does;
    otherwise it is the boot command line, a blank and the failsafe
    options, so that its words are the words of the boot command line
    followed by the ten options in their order. *)
Theorem get_failsafe_boot_cmdline_words (self : t) :
  (∀ e, get_boot_cmdline self = Raise e →
        get_failsafe_boot_cmdline self = Raise e)
  ∧ (∀ base, get_boot_cmdline self = Ok base →
       ∃ full, get_failsafe_boot_cmdline self = Ok full
         ∧ full = base +:+ " " +:+ get_failsafe_kernel_options
         ∧ Py.split " " full = Py.split " " base ++ failsafe_kernel_options).
Proof.
  unfold get_failsafe_boot_cmdline. split.
  - by intros e ->.
  - intros base ->. eexists. split; [reflexivity|]. split; [done|].
    change (base +:+ " " +:+ get_failsafe_kernel_options)
      with (base +:+ String " " get_failsafe_kernel_options).
    by rewrite (PyMore.split_app " " base get_failsafe_kernel_options).
Qed.

(** X4 at work on the ec2 descriptor. *)
Lemma get_failsafe_boot_cmdline_words_witness :
  ∃ full, get_failsafe_boot_cmdline Examples.ec2_descriptor = Ok full
    ∧ Py.split " " full
      = ["console=ttyS0"; ""; "root=/dev/sda1"] ++ failsafe_kernel_options.
Proof.
  destruct (get_failsafe_boot_cmdline_words Examples.ec2_descriptor) as [_ H].
  destruct (H "console=ttyS0  root=/dev/sda1" eq_refl) as (full & Hf & _ & Hw).
  exists full. split; [exact Hf|exact Hw].
Defined.

(** X5: the failsafe options bring no root assignment: the failsafe
    command line holds as many as the boot command line. *)
Theorem get_failsafe_boot_cmdline_root (self : t) (base full : string) :
  get_boot_cmdline self = Ok base →
  get_failsafe_boot_cmdline self = Ok full →
  Py.occurrences "root=" full = Py.occurrences "root=" base.
Proof.
  unfold get_failsafe_boot_cmdline. intros -> [= <-].
  change (base +:+ " " +:+ get_failsafe_kernel_options)
    with (base +:+ String " " get_failsafe_kernel_options).
  rewrite (PyMore.occurrences_root_blank base get_failsafe_kernel_options).
  by rewrite Nat.add_0_r.
Qed.

(** X5 at work on the ec2 descriptor: one root assignment in each. *)
Lemma get_failsafe_boot_cmdline_root_witness :
  Py.occurrences "root="
    ("console=ttyS0  root=/dev/sda1" +:+ " " +:+ get_failsafe_kernel_options)
  = 1%nat.
Proof.
  exact (get_failsafe_boot_cmdline_root Examples.ec2_descriptor
           "console=ttyS0  root=/dev/sda1" _ eq_refl eq_refl).
Defined.

Lemma get_boot_cmdline_stripped (self : t) (s : string) :
  get_boot_cmdline self = Ok s → ∃ raw, s = Py.strip raw.
Proof.
  unfold get_boot_cmdline.
  destruct (get_root_cmdline_parameter self) as [root|]; simpl; [|done].
  intros [= <-]. by eexists.
Qed.

(** X6: a boot command line that is returned has no whitespace at
    either end: stripping it from the left or from the right changes
    nothing. *)
Theorem get_boot_cmdline_no_margin (self : t) (s : string) :
  get_boot_cmdline self = Ok s → Py.lstrip s = s ∧ Py.rstrip s = s.
Proof.
  intros [raw ->]%get_boot_cmdline_stripped. apply PyMore.strip_fixed.
Qed.

(** X6 at work on a command line with whitespace around it. *)
Lemma get_boot_cmdline_no_margin_witness :
  Py.lstrip "root=/dev/vda2 quiet" = "root=/dev/vda2 quiet"
  ∧ Py.rstrip "root=/dev/vda2 quiet" = "root=/dev/vda2 quiet".
Proof.
  exact (get_boot_cmdline_no_margin
           (Examples.descriptor None (Some "ec2")
              (Some "  root=/dev/vda2 quiet  ") None [])
           "root=/dev/vda2 quiet" eq_refl).
Defined.

(** X7: for the firmware [ec2] or [ec2hvm] and a configured command
    line, the boot command line is returned and holds a root assignment,
    the configured one or the appended one. *)
Theorem get_boot_cmdline_ec2_has_root (self : t) (c : string) :
  get_kernelcmdline (xs_build_type (state self)) = Some c →
  get_firmware (xs_build_type (state self)) = Some "ec2"
  ∨ get_firmware (xs_build_type (state self)) = Some "ec2hvm" →
  ∃ s, get_boot_cmdline self = Ok s ∧ Py.contains "root=" s = true.
Proof.
  intros Hc Hfw. rewrite (BootLoaderFacts.get_boot_cmdline_Some self c Hc).
  eexists. split; [reflexivity|].
  destruct (Py.contains "root=" c) eqn:Hroot.
  - by apply PyMore.contains_root_strip.
  - apply PyMore.occurrences_contains.
    destruct Hfw as [-> | ->]; simpl.
    + rewrite (PyFacts.occurrences_root_appended c "root=/dev/sda1"); auto.
    + rewrite (PyFacts.occurrences_root_appended c "root=/dev/hda1"); auto.
Qed.

(** X7 at work: a configured root is kept on [ec2hvm]. *)
Lemma get_boot_cmdline_ec2_has_root_witness :
  ∃ s, get_boot_cmdline
         (Examples.descriptor None (Some "ec2hvm") (Some "root=LABEL=x rw") None [])
       = Ok s ∧ Py.contains "root=" s = true.
Proof.
  apply (get_boot_cmdline_ec2_has_root
           (Examples.descriptor None (Some "ec2hvm") (Some "root=LABEL=x rw") None [])
           "root=LABEL=x rw" eq_refl).
  right. reflexivity.
Defined.

(** X8: the install title is the plain menu title; the full menu title
    is the plain one followed by the image type in brackets, and quoting
    it quotes the two parts and turns the brackets into [_(_] and [_)];
    without a title the full menu title fails. *)
Theorem get_menu_entry_title_quoted (upper : string → string) (d : xml_data) :
  get_menu_entry_title upper d true = Ok (get_menu_entry_install_title d)
  ∧ (∀ title, get_menu_entry_install_title d = Some title →
       ∃ full, get_menu_entry_title upper d false = Ok (Some full)
         ∧ full = title +:+ " [ " +:+ upper (get_image d) +:+ " ]"
         ∧ quote_title full
           = quote_title title +:+ "_(_" +:+ quote_title (upper (get_image d))
             +:+ "_)")
  ∧ (get_menu_entry_install_title d = None →
       ∃ e, get_menu_entry_title upper d false = Raise e).
Proof.
  unfold get_menu_entry_title, get_menu_entry_install_title.
  split; [done|]. split.
  - intros title ->. eexists. split; [reflexivity|]. split; [done|].
    by rewrite !quote_title_app.
  - intros ->. by eexists.
Qed.

(** X8 at work on the title [My [Image]] of an oem image. *)
Lemma get_menu_entry_title_quoted_witness :
  ∃ full, get_menu_entry_title (λ _, "OEM") Examples.titles false = Ok (Some full)
    ∧ quote_title full = "My_(Image)_(_OEM_)".
Proof.
  destruct (get_menu_entry_title_quoted (λ _, "OEM") Examples.titles) as (_ & H & _).
  destruct (H "My [Image]" eq_refl) as (full & Hf & _ & Hq).
  exists full. split; [exact Hf|exact Hq].
Defined.

End BootLoaderMore.

(** ** More of the volume manager *)

Module VolumeMore.
Import VolumeManagerBase.

(** *** The size of a volume *)

(** X9: the paths left out of the measurement of a volume are exactly
    the normalized paths of the other volumes, all of them when the
    volume is the root and else those whose realpath starts with the
    characters of its realpath. *)
Theorem exclude_paths_exact (root lookup : string) (vols : list volume)
    (p : string) :
  p ∈ exclude_loop root lookup vols [] ↔
  ∃ v, v ∈ vols ∧ lookup ≠ realpath v
    ∧ (lookup = Path.sep ∨ Py.startswith (realpath v) lookup = true)
    ∧ p = Path.normpath (root +:+ Path.sep +:+ realpath v).
Proof.
  rewrite VolumeFacts.exclude_loop_filter. simpl.
  rewrite list_elem_of_fmap. split.
  - intros (v & -> & ((H1 & H2) & Hv)%list_elem_of_filter). by exists v.
  - intros (v & Hv & H1 & H2 & ->). exists v. split; [done|].
    by apply list_elem_of_filter.
Qed.

(** X10: every volume below the sized volume in the hierarchy is left
    out of its measurement. *)
Theorem exclude_paths_descendant (root lookup : string) (vols : list volume)
    (v : volume) :
  v ∈ vols → Path.ancestor lookup (realpath v) →
  Path.normpath (root +:+ Path.sep +:+ realpath v)
    ∈ exclude_loop root lookup vols [].
Proof. apply VolumeFacts.exclude_loop_descendant. Qed.

(** X10 at work: [/var/log] is left out when [/var] is sized. *)
Lemma exclude_paths_descendant_witness :
  "/tmp/root/var/log"
    ∈ exclude_loop "/tmp/root" "/var" [Examples.LVvar; Examples.LVvar_log] [].
Proof.
  apply (exclude_paths_descendant "/tmp/root" "/var"
           [Examples.LVvar; Examples.LVvar_log] Examples.LVvar_log).
  - right. left.
  - split; [discriminate|]. left. by exists "log".
Defined.

(** X11: sizing the root leaves out every volume with another realpath,
    in the order of the volumes, and sizing a volume no other realpath
    starts with leaves out nothing. *)
Theorem exclude_paths_root_and_leaf (root lookup : string) (vols : list volume) :
  exclude_loop root Path.sep vols []
  = (λ v, Path.normpath (root +:+ Path.sep +:+ realpath v))
      <$> filter (λ v, realpath v ≠ Path.sep) vols
  ∧ (lookup ≠ Path.sep →
     (∀ v, v ∈ vols → realpath v ≠ lookup →
           Py.startswith (realpath v) lookup = false) →
     exclude_loop root lookup vols [] = []).
Proof.
  rewrite !VolumeFacts.exclude_loop_filter. simpl. split.
  - f_equal. apply list_filter_iff. intros v. split.
    + intros [Hne _]. congruence.
    + intros Hne. split; [congruence|by left].
  - intros Hl Hleaf.
    assert (filter (λ v, lookup ≠ realpath v
              ∧ (lookup = Path.sep ∨ Py.startswith (realpath v) lookup = true))
              vols = []) as ->; [|done].
    induction vols as [|v vols IH]; [done|].
    rewrite filter_cons_False.
    + apply IH. intros v' Hv'. apply Hleaf. by right.
    + intros [Hne [?|Hs]]; [done|].
      rewrite Hleaf in Hs; [done|by left|done].
Qed.

(** X11 at work: [/opt] beside [/var] and [/var/log]. *)
Lemma exclude_paths_root_and_leaf_witness :
  exclude_loop "/tmp/root" "/opt"
    [Examples.LVvar; Examples.LVopt; Examples.LVvar_log] [] = [].
Proof.
  apply (proj2 (exclude_paths_root_and_leaf "/tmp/root" "/opt"
                  [Examples.LVvar; Examples.LVopt; Examples.LVvar_log])).
  - discriminate.
  - intros v Hv Hne.
    apply elem_of_cons in Hv as [->|Hv]; [reflexivity|].
    apply elem_of_cons in Hv as [->|Hv]; [by destruct Hne|].
    apply list_elem_of_singleton in Hv as ->. reflexivity.
Defined.

(** X12: outside of an oem build a spec [freespace:<value>] gives the
    integer of the value plus the minimum size plus the customized
    measurement, and the error of [int()] when the value is no integer. *)
Theorem get_volume_mbsize_freespace (sz : sizing) (self : t) (v : volume)
    (all_volumes : list volume) (fs mbsize : string)
    (image_type : option string) :
  Py.split ":" (size v) = ["freespace"; mbsize] →
  image_type ≠ Some "oem" →
  (∀ n, Py.int mbsize = Ok n →
     get_volume_mbsize sz self v all_volumes fs image_type
     = Ok (Py.Int
             (n + get_min_volume_mbytes sz
              + customize sz
                  (accumulate_mbyte_file_sizes sz
                     (Path.normpath (root_dir self +:+ Path.sep +:+ realpath v))
                     (exclude_loop (root_dir self) (realpath v) all_volumes []))
                  fs)))
  ∧ (∀ e, Py.int mbsize = Raise e →
       get_volume_mbsize sz self v all_volumes fs image_type = Raise e).
Proof.
  intros Hs Hi. unfold get_volume_mbsize. rewrite Hs.
  rewrite (bool_decide_eq_false_2 _ Hi). simpl.
  split; [intros n Hn|intros e He]; by rewrite ?Hn, ?He.
Qed.

(** X12 at work: [freespace:100] is read, [freespace:1G] is refused. *)
Lemma get_volume_mbsize_freespace_witness :
  get_volume_mbsize Examples.sizing0 (Examples.manager None [Examples.LVvar])
    Examples.LVvar [Examples.LVvar] "ext4" None = Ok (Py.Int 145)
  ∧ get_volume_mbsize Examples.sizing0 (Examples.manager None [])
      (Examples.mkvolume "LVsrv" "freespace:1G" "/srv" false) [] "ext4" None
    = Raise (ValueError "invalid literal for int() with base 10: 1G").
Proof.
  split.
  - destruct (get_volume_mbsize_freespace Examples.sizing0
                (Examples.manager None [Examples.LVvar]) Examples.LVvar
                [Examples.LVvar] "ext4" "100" None eq_refl) as [H _];
      [discriminate|].
    apply (H 100%Z). reflexivity.
  - destruct (get_volume_mbsize_freespace Examples.sizing0
                (Examples.manager None [])
                (Examples.mkvolume "LVsrv" "freespace:1G" "/srv" false)
                [] "ext4" "1G" None eq_refl) as [_ H];
      [discriminate|].
    apply H. reflexivity.
Defined.

Lemma length_split (c : ascii) (s : string) :
  length (Py.split c s) = S (Py.occurrences (String c "") s).
Proof.
  induction s as [|x s IH]; [done|].
  cbn [Py.split Py.occurrences String.prefix].
  destruct (Ascii.eqb_spec x c) as [->|Hx].
  - destruct (ascii_dec c c); [|done]. simpl. rewrite IH.
    by destruct s.
  - destruct (ascii_dec c x) as [->|]; [done|]. simpl. rewrite <-IH.
    pose proof (PathFacts.split_nonempty c s).
    by destruct (Py.split c s).
Qed.

(** X13: a size is returned only for a spec with exactly one colon, in
    an oem build as well, where this is all that is asked of the spec. *)
Theorem get_volume_mbsize_one_colon (sz : sizing) (self : t) (v : volume)
    (all_volumes : list volume) (fs : string) (image_type : option string) :
  ((∃ r, get_volume_mbsize sz self v all_volumes fs image_type = Ok r) →
   Py.occurrences ":" (size v) = 1%nat)
  ∧ (Py.occurrences ":" (size v) = 1%nat →
     ∃ r, get_volume_mbsize sz self v all_volumes fs (Some "oem") = Ok r).
Proof.
  pose proof (length_split ":" (size v)) as Hlen.
  unfold get_volume_mbsize. split.
  - intros [r Hr].
    destruct (Py.split ":" (size v)) as [|a [|b [|c l]]]; simpl in *;
      try done. lia.
  - intros Hone. rewrite Hone in Hlen.
    destruct (Py.split ":" (size v)) as [|a [|b [|c l]]]; simpl in *;
      try lia. by eexists.
Qed.

(** X13 at work: [freespace] without a colon is refused in an oem build. *)
Lemma get_volume_mbsize_one_colon_witness :
  ¬ ∃ r, get_volume_mbsize Examples.sizing0 (Examples.manager None [])
           (Examples.mkvolume "LVsrv" "freespace" "/srv" false) [] "ext4"
           (Some "oem") = Ok r.
Proof.
  intros H.
  apply (proj1 (get_volume_mbsize_one_colon Examples.sizing0
                  (Examples.manager None [])
                  (Examples.mkvolume "LVsrv" "freespace" "/srv" false) [] "ext4"
                  (Some "oem"))) in H.
  discriminate H.
Defined.


(** *** The canonical volume list *)

(** under a realpath the dictionary of the first loop holds the last
    volume that is not flagged fullsize and has this realpath *)
Lemma canonical_fold_exact (vols : list volume) :
  ∃ m : gmap string volume,
    fold_left canonical_step vols (∅, None) = (m, last (filter flagged vols))
    ∧ ∀ k, m !! k =
           if decide (k = "") then None
           else last (filter (λ v, fullsize v = false ∧ realpath v = k) vols).
Proof.
  induction vols as [|x vols IH] using rev_ind.
  - exists ∅. split; [done|]. intros k. rewrite lookup_empty.
    by case_decide.
  - destruct IH as (m & Hfold & Hm).
    rewrite fold_left_app, Hfold, filter_app. simpl.
    destruct (fullsize x) eqn:Hfull.
    + exists m. rewrite filter_cons_True by done.
      rewrite filter_nil, last_snoc. split; [done|].
      intros k. rewrite Hm, filter_app, filter_cons_False, filter_nil, app_nil_r;
        [done|]. intros [? _]. congruence.
    + rewrite filter_cons_False by (unfold flagged; congruence).
      rewrite filter_nil, app_nil_r.
      case_bool_decide as Hpath; simpl.
      * exists m. split; [done|]. intros k. rewrite Hm.
        case_decide as Hk; [done|].
        rewrite filter_app, filter_cons_False, filter_nil, app_nil_r; [done|].
        intros [_ ?]. congruence.
      * exists (<[realpath x := x]> m). split; [done|]. intros k.
        destruct (decide (realpath x = k)) as [<-|Hne].
        -- rewrite lookup_insert_eq, decide_False by done.
           rewrite filter_app, filter_cons_True, filter_nil by done.
           by rewrite last_snoc.
        -- rewrite lookup_insert_ne, Hm by done.
           case_decide as Hk; [done|].
           by rewrite filter_app, filter_cons_False, filter_nil, app_nil_r
             by (intros [_ ?]; done).
Qed.

(** X15: whether or not the realpaths are unique, the ordered list holds
    one volume for each realpath: a volume is listed exactly when it is
    the last one configured under its realpath among the volumes that are
    not flagged fullsize. *)
Theorem get_canonical_volume_list_last_of_realpath (self : t) :
  ∃ r, get_canonical_volume_list self = Ok r
    ∧ NoDup (realpath <$> volumes r)
    ∧ ∀ v, v ∈ volumes r ↔
           realpath v ≠ ""
           ∧ last (filter (λ u, fullsize u = false ∧ realpath u = realpath v)
                     (self_volumes self)) = Some v.
Proof.
  destruct (canonical_fold_exact (self_volumes self)) as (m & Hfold & Hm).
  destruct (VolumeFacts.rmapM_getitem m
              (Path.sort_by_hierarchy (sorted (map_to_list m).*1)))
    as (vl & Hvl & Hall).
  { intros k. by rewrite VolumeFacts.elem_of_keys. }
  assert (∀ k v, m !! k = Some v → realpath v = k ∧ k ≠ "") as Hkey.
  { intros k v Hk. rewrite Hm in Hk. case_decide as Hne; [done|].
    apply last_Some_elem_of, list_elem_of_filter in Hk as [[_ ?] _]. done. }
  eexists. split.
  { unfold get_canonical_volume_list. rewrite Hfold, Hvl. reflexivity. }
  simpl. split.
  - rewrite (VolumeFacts.Forall2_realpath m
               (Path.sort_by_hierarchy (sorted (map_to_list m).*1)) vl);
      [|by intros k v [? _]%Hkey|done].
    rewrite PathFacts.sort_by_hierarchy_perm. unfold sorted.
    rewrite merge_sort_Permutation. apply NoDup_fst_map_to_list.
  - intros v. split.
    + intros Hv.
      destruct (VolumeFacts.Forall2_elem_of_r _ _ _ _ Hall Hv) as (k & _ & Hk).
      destruct (Hkey k v Hk) as [<- Hne]. split; [done|].
      rewrite Hm in Hk. by rewrite decide_False in Hk.
    + intros [Hne Hlast].
      assert (m !! realpath v = Some v) as Hk.
      { rewrite Hm. by rewrite decide_False. }
      assert (realpath v ∈ Path.sort_by_hierarchy (sorted (map_to_list m).*1))
        as Hin by (apply VolumeFacts.elem_of_keys; by eexists).
      destruct (VolumeFacts.Forall2_elem_of_l _ _ _ _ Hall Hin) as (v' & Hv' & Hk').
      congruence.
Qed.

Lemma NoDup_fmap_const {A B : Type} (f : A → B) (k : B) (l : list A) :
  NoDup (f <$> l) → (∀ x, x ∈ l → f x = k) → (length l ≤ 1)%nat.
Proof.
  destruct l as [|x [|y l]]; simpl; [lia..|].
  intros Hnd Hk. exfalso.
  apply NoDup_cons in Hnd as [Hx _]. apply Hx.
  rewrite (Hk x), <-(Hk y); [left|right; left|left].
Qed.

Lemma Permutation_short {A : Type} (l l' : list A) :
  l ≡ₚ l' → (length l ≤ 1)%nat → l = l'.
Proof.
  intros Hp Hlen. destruct l as [|x [|y l]]; simpl in Hlen; [| |lia].
  - by apply Permutation_nil_l.
  - by apply Permutation_singleton_l.
Qed.

(** X16: with unique realpaths the ordered list does not depend on the
    order the volumes are configured in. *)
Theorem get_canonical_volume_list_order_free (self self' : t) :
  self_volumes self ≡ₚ self_volumes self' →
  NoDup (realpath <$> self_volumes self) →
  ∃ r r', get_canonical_volume_list self = Ok r
    ∧ get_canonical_volume_list self' = Ok r'
    ∧ volumes r = volumes r'.
Proof.
  intros Hperm Hnd.
  destruct (canonical_fold_exact (self_volumes self)) as (m & Hfold & Hm).
  destruct (canonical_fold_exact (self_volumes self')) as (m' & Hfold' & Hm').
  assert (m' = m) as ->.
  { apply map_eq. intros k. rewrite Hm, Hm'. case_decide; [done|].
    f_equal. symmetry. apply Permutation_short.
    - by rewrite Hperm.
    - apply (NoDup_fmap_const realpath k).
      + assert (realpath <$> filter (λ v, fullsize v = false ∧ realpath v = k)
                                (self_volumes self)
                `sublist_of` realpath <$> self_volumes self) as Hsub.
        { apply fmap_sublist. apply sublist_filter. }
        exact (sublist_NoDup _ _ Hnd Hsub).
      + by intros x [[_ ?] _]%list_elem_of_filter. }
  destruct (VolumeFacts.rmapM_getitem m
              (Path.sort_by_hierarchy (sorted (map_to_list m).*1)))
    as (vl & Hvl & _).
  { intros k. by rewrite VolumeFacts.elem_of_keys. }
  do 2 eexists. unfold get_canonical_volume_list.
  rewrite Hfold, Hfold', Hvl. by repeat split.
Qed.

(** X16 at work: the volumes of the example in two orders. *)
Lemma get_canonical_volume_list_order_free_witness :
  ∃ r r',
    get_canonical_volume_list
      (Examples.manager None [Examples.LVvar_log; Examples.LVopt; Examples.LVvar])
    = Ok r
    ∧ get_canonical_volume_list
        (Examples.manager None [Examples.LVvar; Examples.LVvar_log; Examples.LVopt])
      = Ok r'
    ∧ volumes r = volumes r'.
Proof.
  apply (get_canonical_volume_list_order_free
           (Examples.manager None [Examples.LVvar_log; Examples.LVopt; Examples.LVvar])
           (Examples.manager None [Examples.LVvar; Examples.LVvar_log; Examples.LVopt])).
  - symmetry.
    exact (Permutation_cons_append [Examples.LVvar_log; Examples.LVopt]
             Examples.LVvar).
  - apply (bool_decide_unpack _). reflexivity.
Defined.

(** *** The paths of the volumes in the root directory *)

Section create_paths.
Context {F : Type} (tr : tree F).

(** what is asked of [Path.create]: the path is there afterwards, and
    what was there stays *)
Hypothesis created : ∀ p f, path_exists tr p (path_create tr p f) = true.
Hypothesis kept :
  ∀ p q f, path_exists tr q f = true → path_exists tr q (path_create tr p f) = true.

Lemma create_volume_path_kept (root : string) (f : F) (v : volume) (q : string) :
  path_exists tr q f = true →
  path_exists tr q (create_volume_path tr root f v) = true.
Proof.
  intros Hq. unfold create_volume_path.
  destruct (_ && _); [|done].
  destruct (path_exists tr (Path.normpath _) f); simpl; [done|]. by apply kept.
Qed.

Lemma create_volume_paths_kept (root : string) (vols : list volume) (f : F)
    (q : string) :
  path_exists tr q f = true →
  path_exists tr q (fold_left (create_volume_path tr root) vols f) = true.
Proof.
  revert f. induction vols as [|v vols IH]; intros f Hq; [done|].
  simpl. by apply IH, create_volume_path_kept.
Qed.

Lemma create_volume_paths_there (root : string) (vols : list volume) (f : F) :
  (∀ v, v ∈ vols → realpath v ≠ "" → realpath v ≠ Path.sep →
        path_exists tr (Path.normpath (root +:+ Path.sep +:+ realpath v)) f = true) →
  fold_left (create_volume_path tr root) vols f = f.
Proof.
  induction vols as [|v vols IH]; intros Hall; [done|]. simpl.
  assert (create_volume_path tr root f v = f) as ->.
  { unfold create_volume_path.
    case_bool_decide as H1; [done|]. case_bool_decide as H2; [done|]. simpl.
    rewrite Hall; [done|by left|done|done]. }
  apply IH. intros v' Hv'. apply Hall. by right.
Qed.

(** X17: after [create_volume_paths_in_root_dir] the path of every
    volume that has a realpath other than the root is there; what was
    there before is there still; and a second run changes nothing. *)
Theorem create_volume_paths_in_root_dir_post (self : t) (f : F) :
  let f' := create_volume_paths_in_root_dir tr self f in
  (∀ v, v ∈ self_volumes self → realpath v ≠ "" → realpath v ≠ Path.sep →
        path_exists tr
          (Path.normpath (root_dir self +:+ Path.sep +:+ realpath v)) f' = true)
  ∧ (∀ q, path_exists tr q f = true → path_exists tr q f' = true)
  ∧ create_volume_paths_in_root_dir tr self f' = f'.
Proof.
  unfold create_volume_paths_in_root_dir.
  assert (∀ vols f v, v ∈ vols → realpath v ≠ "" → realpath v ≠ Path.sep →
            path_exists tr
              (Path.normpath (root_dir self +:+ Path.sep +:+ realpath v))
              (fold_left (create_volume_path tr (root_dir self)) vols f) = true)
    as Hpost.
  { clear f. induction vols as [|x vols IH]; intros f v Hv H1 H2.
    - by apply elem_of_nil in Hv.
    - simpl. apply elem_of_cons in Hv as [->|Hv]; [|by apply IH].
      apply create_volume_paths_kept. unfold create_volume_path.
      rewrite (bool_decide_eq_false_2 _ H1), (bool_decide_eq_false_2 _ H2).
      simpl. destruct (path_exists tr (Path.normpath _) f) eqn:He; simpl; [done|].
      apply created. }
  split; [by apply Hpost|]. split.
  - intros q Hq. by apply create_volume_paths_kept.
  - apply create_volume_paths_there. by apply Hpost.
Qed.

End create_paths.

(** X17 at work on a tree kept as a set of paths, [/tmp/root/var] being
    there already. *)
Lemma create_volume_paths_in_root_dir_post_witness :
  create_volume_paths_in_root_dir Examples.path_set
    (Examples.manager None [Examples.LVRoot; Examples.LVvar; Examples.LVvar_log])
    {["/tmp/root/var"]}
  = {["/tmp/root/var/log"; "/tmp/root/var"]}
  ∧ path_exists Examples.path_set "/tmp/root/var/log"
      (create_volume_paths_in_root_dir Examples.path_set
         (Examples.manager None [Examples.LVRoot; Examples.LVvar; Examples.LVvar_log])
         {["/tmp/root/var"]}) = true.
Proof.
  split; [by vm_compute|].
  assert (∀ p f, path_exists Examples.path_set p
                   (path_create Examples.path_set p f) = true) as Hc.
  { intros p f. apply bool_decide_eq_true_2. set_solver. }
  assert (∀ p q f, path_exists Examples.path_set q f = true →
            path_exists Examples.path_set q
              (path_create Examples.path_set p f) = true) as Hk.
  { intros p q f Hq%bool_decide_eq_true_1. apply bool_decide_eq_true_2.
    set_solver. }
  destruct (create_volume_paths_in_root_dir_post Examples.path_set Hc Hk
              (Examples.manager None
                 [Examples.LVRoot; Examples.LVvar; Examples.LVvar_log])
              {["/tmp/root/var"]}) as (H & _ & _).
  apply (H Examples.LVvar_log).
  - right. right. left.
  - discriminate.
  - discriminate.
Defined.

(** *** Construction and synchronisation *)

(** X18: without a mount root, not set or empty, [sync_data] returns at
    once and leaves the system as it is, whatever the hooks are. *)
Theorem sync_data_idle {W : Type} (b : backend W) (self : t)
    (exclude : option (list string)) (w : W) :
  self_mountpoint self = None ∨ self_mountpoint self = Some "" →
  sync_data b self exclude w = Ok w.
Proof. unfold sync_data. by intros [-> | ->]. Qed.

(** X18 at work with the hooks of the base class, which raise. *)
Lemma sync_data_idle_witness :
  sync_data (base_backend (λ _ _, false) (λ _ _ _ _ w, Ok w))
    (Examples.manager None [Examples.LVvar]) None tt = Ok tt.
Proof.
  apply (sync_data_idle _ (Examples.manager None [Examples.LVvar]) None tt).
  left. reflexivity.
Defined.



(** X20: with the hooks as the base class has them and a mount root
    set up, [sync_data] never returns: it ends in the error of a hook that
    is not implemented, or in the error of the copy. *)
Theorem sync_data_needs_backend {W : Type} (is_mounted : string → W → bool)
    (data_sync : string → string → list string → option (list string) → W → result W)
    (self : t) (exclude : option (list string)) (mp : string) (w : W) :
  self_mountpoint self = Some mp → mp ≠ "" →
  ∃ e, sync_data (base_backend is_mounted data_sync) self exclude w = Raise e
    ∧ (e = NotImplementedError
       ∨ data_sync (root_dir self) mp sync_options exclude w = Raise e).
Proof.
  intros Hmp Hne. unfold sync_data. rewrite Hmp.
  destruct mp as [|c mp]; [done|]. simpl.
  destruct (is_mounted (String c mp) w); simpl; [|eauto].
  destruct (data_sync _ _ _ _ w) as [w1|e] eqn:Hs; simpl; eauto.
Qed.

(** X20 at work: the hooks of the base class on a system that is not
    mounted. *)
Lemma sync_data_needs_backend_witness :
  ∃ e, sync_data (base_backend (λ _ (_ : unit), false) (λ _ _ _ _ w, Ok w))
         (Examples.manager (Some "/tmp/kiwi_volumes.a1") []) None tt = Raise e
    ∧ (e = NotImplementedError ∨ Ok tt = Raise e).
Proof.
  apply (sync_data_needs_backend (λ _ (_ : unit), false)
           (λ _ _ _ _ w, Ok w)
           (Examples.manager (Some "/tmp/kiwi_volumes.a1") []) None
           "/tmp/kiwi_volumes.a1" tt eq_refl).
  discriminate.
Defined.

(** X21: the constructor fails with the setup error exactly when the
    root directory is missing; the manager it returns has the root
    directory and the volumes it was given and no mount root, so that
    [sync_data] does nothing until [setup_mountpoint] has run; the options
    of the filesystem are empty unless the custom arguments give them. *)
Theorem init_fresh (path_exists : string → bool) (root : string)
    (vols : list volume) (custom_args : option (gmap string (list string))) :
  (path_exists root = false →
     init path_exists root vols custom_args
     = Raise (KiwiVolumeManagerSetupError
                ("given root directory " +:+ root +:+ " does not exist")))
  ∧ (path_exists root = true →
     ∃ self args, init path_exists root vols custom_args = Ok (self, args)
       ∧ root_dir self = root ∧ self_volumes self = vols
       ∧ (∀ (W : Type) (b : backend W) exclude (w : W),
            sync_data b self exclude w = Ok w)
       ∧ (∀ mkdtemp, self_mountpoint (setup_mountpoint mkdtemp self)
                     = Some (mkdtemp "kiwi_volumes."))
       ∧ create_options args
         = default [] (custom_args ≫= (λ a, a !! "fs_create_options"))
       ∧ mount_options args
         = default [] (custom_args ≫= (λ a, a !! "fs_mount_options"))).
Proof.
  unfold init. split; intros ->; simpl; [done|].
  do 2 eexists. split; [reflexivity|]. simpl.
  repeat split; by destruct custom_args.
Qed.

(** X21 at work: only the mount options are given. *)
Lemma init_fresh_witness :
  ∃ self args,
    init (λ p, bool_decide (p = "/tmp/root")) "/tmp/root" [Examples.LVvar]
      (Some {["fs_mount_options" := ["compress=lzo"]]}) = Ok (self, args)
    ∧ create_options args = [] ∧ mount_options args = ["compress=lzo"]
    ∧ sync_data Examples.recorder self None
        {| Examples.mounted := false; Examples.calls := [] |}
      = Ok {| Examples.mounted := false; Examples.calls := [] |}.
Proof.
  destruct (init_fresh (λ p, bool_decide (p = "/tmp/root")) "/tmp/root"
              [Examples.LVvar]
              (Some {["fs_mount_options" := ["compress=lzo"]]})) as [_ H].
  destruct (H eq_refl) as (self & args & Hi & _ & _ & Hs & _ & Hc & Hm).
  exists self, args. split; [exact Hi|].
  split; [by rewrite Hc|]. split; [by rewrite Hm|]. apply Hs.
Defined.

End VolumeMore.

(** ** The install image builder *)

Module InstallFacts.
Import InstallImageBuilder.

Lemma basename_app (d t : string) :
  Path.basename (d +:+ String "/" t) = Path.basename t.
Proof.
  unfold Path.basename. rewrite PyMore.split_app, last_app.
  pose proof (PathFacts.split_nonempty "/" t) as Hne.
  destruct (Py.split "/" t) as [|w ws] using rev_ind; [done|].
  by rewrite last_snoc.
Qed.

(** X22: the names of the disk image, the install ISO and the PXE
    archive are the target directory, the one stem [pxename] and an
    ending each; the architecture in them is never [i686] or [i586], and
    is the machine name otherwise. *)
Theorem init_names (i : inputs) (root target : string)
    (custom_args : option (gmap string (list string))) :
  let self := init i root target custom_args in
  pxename self = get_name i +:+ "." +:+ arch self +:+ "-" +:+ get_image_version i
  ∧ diskname self = target +:+ "/" +:+ pxename self +:+ ".raw"
  ∧ isoname self = target +:+ "/" +:+ pxename self +:+ ".install.iso"
  ∧ pxetarball self = target +:+ "/" +:+ pxename self +:+ ".install.tar"
  ∧ arch self ≠ "i686" ∧ arch self ≠ "i586"
  ∧ (machine i ≠ "i686" → machine i ≠ "i586" → arch self = machine i).
Proof.
  simpl. rewrite ?PyFacts.app_empty_l, ?PyMore.app_assoc.
  repeat split; try done.
  - case_bool_decide as H1; [done|]. case_bool_decide as H2; done.
  - case_bool_decide as H1; [done|]. case_bool_decide as H2; done.
  - intros H1 H2.
    by rewrite (bool_decide_eq_false_2 _ H1), (bool_decide_eq_false_2 _ H2).
Qed.

Lemma add_system_image_boot_options_file (b : boot_image) :
  add_system_image_boot_options_to_boot_image b
  = ([IncludeFile "/config.bootoptions" true], inr tt).
Proof.
  unfold add_system_image_boot_options_to_boot_image, call. simpl.
  rewrite PyFacts.app_empty_l.
  change (boot_root_directory b +:+ "/config.bootoptions")
    with (boot_root_directory b +:+ String "/" "config.bootoptions").
  by rewrite basename_app.
Qed.

(** X23: for a dracut initrd the boot image task is told to include the
    module [kiwi-dump], to omit [multipath] exactly when the multipath
    scan is switched off (not when it is unset), and to include the file
    [/config.bootoptions], whatever the root directory of the boot image
    is, before it creates the initrd; for any other initrd system it only
    creates the initrd. *)
Theorem install_initrd_calls (b : boot_image) (self : t) :
  install_initrd b self
  = ((if bool_decide (initrd_system self = Some "dracut")
      then [IncludeModule "kiwi-dump" true]
           ++ (if bool_decide (root_filesystem_is_multipath self = Some false)
               then [OmitModule "multipath" true] else [])
           ++ [IncludeFile "/config.bootoptions" true]
      else [])
     ++ [CreateInitrd "initrd_kiwi_install" true], inr tt).
Proof.
  unfold install_initrd. rewrite add_system_image_boot_options_file.
  destruct (bool_decide (initrd_system self = Some "dracut")),
    (bool_decide (root_filesystem_is_multipath self = Some false)); done.
Qed.



(** X22 at work on a 32 bit machine. *)
Lemma init_names_witness :
  let self :=
    init {| machine := "i686"; get_name := "LimeJeOS"; get_image_version := "1.2.3";
            get_volid := Some ""; get_oemconfig_oem_multipath_scan := None;
            get_initrd_system := Some "dracut"; get_install_volume_id := "INSTALL";
            get_dracut_conf_name := "/etc/dracut.conf.d/02-kiwi.conf" |}
         "/tmp/root" "/tmp/target" None in
  isoname self = "/tmp/target/LimeJeOS.ix86-1.2.3.install.iso"
  ∧ isoname self = "/tmp/target" +:+ "/" +:+ pxename self +:+ ".install.iso"
  ∧ iso_volume_id self = "INSTALL".
Proof.
  intros self. split; [reflexivity|]. split; [|reflexivity].
  apply (init_names
           {| machine := "i686"; get_name := "LimeJeOS"; get_image_version := "1.2.3";
              get_volid := Some ""; get_oemconfig_oem_multipath_scan := None;
              get_initrd_system := Some "dracut"; get_install_volume_id := "INSTALL";
              get_dracut_conf_name := "/etc/dracut.conf.d/02-kiwi.conf" |}
           "/tmp/root" "/tmp/target" None).
Defined.


End InstallFacts.
